(** * usfmp: the USFM parser ([pkg/usfm], parser and types)

    A shallow embedding of the marker-driven parser of [arenzana/usfmp]:
    the marker tokenizer [parseMarker], the chapter/section/verse state
    machine of [Parse], and the footnote extraction and text cleaning done
    by [parseVerse].

    Conventions of the embedding.
    - A Go [string] is a sequence of bytes: [string] of the standard
      library, one [ascii] per byte.
    - A Go slice is [slice A]: either the nil slice or an allocated slice
      with its elements; [append] allocates, [make0] is [make([]T, 0)].
    - Go [int] is the 64-bit signed integer: a [Z] with the wrap-around of
      [lineNumber++] written out and the range check of [strconv.Atoi].
    - The pointers [currentChapter] and [currentSection] are [option]
      values: the code copies the pointee on every [append] and never keeps
      two pointers to one object, so no store is needed.
    - The functions of the Go library that the parser calls ([strings],
      [strconv], [bufio], [regexp] at the three patterns compiled by
      [NewParser]) are modelled from their documented behaviour. *)

From Stdlib Require Import String Ascii List ZArith Lia Bool.
Import ListNotations.

Local Open Scope list_scope.
Local Open Scope string_scope.

(** ** Slices *)

Inductive slice (A : Type) : Type :=
| nilSlice : slice A
| Slice (elems : list A) : slice A.
Arguments nilSlice {A}.
Arguments Slice {A} elems.

Definition elements {A} (s : slice A) : list A :=
  match s with
  | nilSlice => []
  | Slice l => l
  end.

Definition make0 {A} : slice A := Slice [].

Definition append {A} (s : slice A) (x : A) : slice A :=
  Slice (elements s ++ [x])%list.

Definition len {A} (s : slice A) : nat := List.length (elements s).

Definition isNil {A} (s : slice A) : bool :=
  match s with
  | nilSlice => true
  | Slice _ => false
  end.

(** ** Go's 64-bit [int] *)

Definition minInt : Z := - 2 ^ 63.
Definition maxInt : Z := 2 ^ 63 - 1.

Definition wrapInt (z : Z) : Z := (z + 2 ^ 63) mod 2 ^ 64 - 2 ^ 63.

(** ** Bytes and byte classes *)

Definition backslash : ascii := "\"%char.
Definition newline : ascii := "010"%char.

(** [[a-z0-9]] *)
Definition isTagChar (c : ascii) : bool :=
  let n := N_of_ascii c in
  ((97 <=? n) && (n <=? 122) || (48 <=? n) && (n <=? 57))%N.

(** [\d] *)
Definition isDigit (c : ascii) : bool :=
  let n := N_of_ascii c in ((48 <=? n) && (n <=? 57))%N.

(** [\s] of Go's regexp syntax: tab, newline, form feed, carriage return,
    space. *)
Definition isRegexSpace (c : ascii) : bool :=
  match c with
  | "009" | "010" | "012" | "013" | " " => true
  | _ => false
  end%char.

Definition notBackslash (c : ascii) : bool := negb (Ascii.eqb c backslash).
Definition notNewline (c : ascii) : bool := negb (Ascii.eqb c newline).

(** The longest prefix whose bytes satisfy [f], and the rest. *)
Fixpoint span (f : ascii -> bool) (s : string) : string * string :=
  match s with
  | String c r =>
      if f c then let (a, b) := span f r in (String c a, b) else ("", s)
  | "" => ("", "")
  end.

Fixpoint dropWhile (f : ascii -> bool) (s : string) : string :=
  match s with
  | String c r => if f c then dropWhile f r else s
  | "" => ""
  end.

Fixpoint allChars (f : ascii -> bool) (s : string) : bool :=
  match s with
  | String c r => f c && allChars f r
  | "" => true
  end.

Fixpoint dropBytes (n : nat) (s : string) : string :=
  match n, s with
  | S k, String _ r => dropBytes k r
  | _, _ => s
  end.

(** ** Package [strings] *)

Module strings.

Fixpoint HasPrefix (s prefix : string) : bool :=
  match prefix, s with
  | "", _ => true
  | String a p, String b r => Ascii.eqb a b && HasPrefix r p
  | String _ _, "" => false
  end.

(** [unicode.IsSpace] on the UTF-8 encoding of one rune: the six ASCII
    spaces, U+0085, U+00A0, U+1680, U+2000..U+200A, U+2028, U+2029,
    U+202F, U+205F and U+3000. *)
Definition isSpaceRune (s : string) : bool :=
  match s with
  | String c "" =>
      match c with
      | "009" | "010" | "011" | "012" | "013" | " " => true
      | _ => false
      end%char
  | String "194" (String d "") =>
      match d with
      | "133" | "160" => true
      | _ => false
      end%char
  | String "225" (String "154" (String "128" "")) => true
  | String "226" (String "128" (String d "")) =>
      let n := N_of_ascii d in
      ((128 <=? n) && (n <=? 138) || (n =? 168) || (n =? 169) || (n =? 175))%N
  | String "226" (String "129" (String "159" "")) => true
  | String "227" (String "128" (String "128" "")) => true
  | _ => false
  end.

(** [TrimLeftFunc(s, unicode.IsSpace)]: runes are decoded from the left;
    a byte that starts no white-space rune ends the scan. *)
Fixpoint trimLeftSpace (s : string) : string :=
  match s with
  | "" => ""
  | String a r =>
      if isSpaceRune (String a "") then trimLeftSpace r
      else
        match r with
        | "" => s
        | String b r2 =>
            if isSpaceRune (String a (String b "")) then trimLeftSpace r2
            else
              match r2 with
              | "" => s
              | String c r3 =>
                  if isSpaceRune (String a (String b (String c "")))
                  then trimLeftSpace r3
                  else s
              end
        end
  end.

(** [TrimRightFunc(s, unicode.IsSpace)]: white-space runes are removed
    from the end for as long as the last rune is one. The tail is trimmed
    first; what is left with the head byte in front is dropped when it is
    exactly one white-space rune. *)
Fixpoint trimRightSpace (s : string) : string :=
  match s with
  | "" => ""
  | String a r =>
      let r' := trimRightSpace r in
      if isSpaceRune (String a r') then "" else String a r'
  end.

Definition TrimSpace (s : string) : string :=
  trimRightSpace (trimLeftSpace s).

Fixpoint Contains (s substr : string) : bool :=
  HasPrefix s substr ||
  match s with
  | String _ r => Contains r substr
  | "" => false
  end.

(** [ReplaceAll(s, old, new)] for a non-empty [old]: the occurrences of
    [old] are found from the left and do not overlap; [skip] counts the
    bytes of the current occurrence still to pass. *)
Fixpoint replaceFrom (skip : nat) (s old new : string) : string :=
  match s with
  | "" => ""
  | String c r =>
      match skip with
      | S k => replaceFrom k r old new
      | O =>
          if HasPrefix s old
          then new ++ replaceFrom (String.length old - 1) r old new
          else String c (replaceFrom 0 r old new)
      end
  end.

Definition ReplaceAll (s old new : string) : string :=
  replaceFrom 0 s old new.

(** [Cut(s, " ")]: the text before and after the first space. *)
Fixpoint cutSpace (s : string) : option (string * string) :=
  match s with
  | "" => None
  | String c r =>
      if Ascii.eqb c " " then Some ("", r)
      else
        match cutSpace r with
        | Some (a, b) => Some (String c a, b)
        | None => None
        end
  end.

(** [SplitN(s, " ", 2)]: one part when [s] has no space, else the text
    before the first space and the text after it. *)
Definition SplitN_space_2 (s : string) : list string :=
  match cutSpace s with
  | Some (a, b) => [a; b]
  | None => [s]
  end.

End strings.

(** ** Package [strconv] *)

Module strconv.

Fixpoint digits (acc : Z) (s : string) : option Z :=
  match s with
  | "" => Some acc
  | String c r =>
      if isDigit c
      then digits (10 * acc + (Z.of_N (N_of_ascii c) - 48)) r
      else None
  end.

(** [Atoi]: an optional sign, then one or more decimal digits, the value
    within the range of [int]; [None] stands for the error. *)
Definition sign (s : string) : bool * string :=
  match s with
  | String "-" r => (true, r)
  | String "+" r => (false, r)
  | _ => (false, s)
  end.

Definition Atoi (s : string) : option Z :=
  let '(neg, body) := sign s in
  match body with
  | "" => None
  | _ =>
      match digits 0 body with
      | Some v =>
          let n := if neg then (- v)%Z else v in
          if ((minInt <=? n) && (n <=? maxInt))%Z then Some n else None
      | None => None
      end
  end.

End strconv.

(** ** Package [bufio]: a [Scanner] with the default split function
    [ScanLines] *)

Module bufio.

Definition MaxScanTokenSize : N := 65536.

Inductive ScanError : Type :=
| ErrTooLong
| ErrRead.

(** What a reader delivers: its bytes, then [io.EOF] or a failure. *)
Record Reader : Type := mkReader { Data : string; Failure : bool }.

(** What the loop [for scanner.Scan() { ... scanner.Text() ... }] sees,
    and the value of [scanner.Err()] after it. *)
Record Scanner : Type := mkScanner { Tokens : list string; Err : option ScanError }.

Fixpoint dropCR (s : string) : string :=
  match s with
  | "" => ""
  | String c "" => if Ascii.eqb c "013" then "" else s
  | String c r => String c (dropCR r)
  end.

Definition fits (line : string) : bool :=
  (N.of_nat (String.length line) <? MaxScanTokenSize)%N.

(** [line] holds the bytes read since the last newline. A line ends at a
    newline or at the end of the data; a final empty line is no token; a
    line that does not fit the buffer stops the scan. *)
Fixpoint scanLines (line data : string) (failure : bool) : Scanner :=
  match data with
  | "" =>
      if negb (fits line) then mkScanner [] (Some ErrTooLong)
      else
        mkScanner (if String.eqb line "" then [] else [dropCR line])
                  (if failure then Some ErrRead else None)
  | String c r =>
      if Ascii.eqb c newline then
        if negb (fits line) then mkScanner [] (Some ErrTooLong)
        else
          let rest := scanLines "" r failure in
          mkScanner (dropCR line :: Tokens rest) (Err rest)
      else scanLines (line ++ String c "") r failure
  end.

Definition NewScanner (reader : Reader) : Scanner :=
  scanLines "" (Data reader) (Failure reader).

End bufio.

(** [strings.NewReader(s)]: the bytes of [s], then [io.EOF]. *)
Definition NewReader (s : string) : bufio.Reader := bufio.mkReader s false.

(** ** Package [regexp], at the patterns of [NewParser] *)

Module regexp.

(** [markerRegex.FindStringSubmatch(s)]. The pattern is, anchored at the
    start: a backslash, group 1 [[a-z0-9]+], an optional star, [\s*], and
    group 2, any bytes but a newline, as many as there are. The result is
    the whole match, the tag and the content, or no element when [s] does
    not match. Every operator is greedy and
    nothing after the tag can fail, so the first choice of each stands:
    the longest tag, the star when it is there, all the white space, and
    the rest of the line up to a newline. *)
Definition markerRegex_FindStringSubmatch (s : string) : list string :=
  match s with
  | String c r0 =>
      if Ascii.eqb c backslash then
        let (tag, r1) := span isTagChar r0 in
        if String.eqb tag "" then []
        else
          let (star, r2) :=
            match r1 with
            | String "*" r => ("*", r)
            | _ => ("", r1)
            end in
          let (ws, r3) := span isRegexSpace r2 in
          let (content, _) := span notNewline r3 in
          [String backslash tag ++ star ++ ws ++ content; tag; content]
      else []
  | "" => []
  end.

Definition stripPrefix (prefix s : string) : option string :=
  if strings.HasPrefix s prefix
  then Some (dropBytes (String.length prefix) s)
  else None.

(** A match of
    "\\f\s*([^\\]*?)\\fr\s*([^\\]*?)\\ft\s*([^\\]*?)\\f\*"
    that starts at the first byte of [s]: the three captured groups and
    the length of the match. No group holds a backslash and each literal
    after a group starts with one, so a group ends at the next backslash;
    [\s*] is greedy and takes the white space in front of the group. *)
Definition footnoteMatchAt (s : string) : option (string * string * string * nat) :=
  match stripPrefix "\f" s with
  | None => None
  | Some r0 =>
      let (seg1, r1) := span notBackslash r0 in
      match stripPrefix "\fr" r1 with
      | None => None
      | Some r2 =>
          let (seg2, r3) := span notBackslash r2 in
          match stripPrefix "\ft" r3 with
          | None => None
          | Some r4 =>
              let (seg3, r5) := span notBackslash r4 in
              match stripPrefix "\f*" r5 with
              | None => None
              | Some r6 =>
                  Some (dropWhile isRegexSpace seg1,
                        dropWhile isRegexSpace seg2,
                        dropWhile isRegexSpace seg3,
                        String.length s - String.length r6)
              end
          end
      end
  end.

(** [footnoteRegex.FindAllStringSubmatch(s, -1)]: the matches from the
    left, none overlapping another; each is the matched text and the
    three groups. [skip] counts the bytes of the last match still to
    pass. *)
Fixpoint findAllFrom (skip : nat) (s : string) : list (list string) :=
  match s with
  | "" => []
  | String _ r =>
      match skip with
      | S k => findAllFrom k r
      | O =>
          match footnoteMatchAt s with
          | Some (g1, g2, g3, n) =>
              [substring 0 n s; g1; g2; g3] :: findAllFrom (n - 1) r
          | None => findAllFrom 0 r
          end
      end
  end.

Definition footnoteRegex_FindAllStringSubmatch (s : string) : list (list string) :=
  findAllFrom 0 s.

(** [footnoteRegex.ReplaceAllString(s, repl)] for a [repl] without [$]. *)
Fixpoint replaceAllFrom (skip : nat) (s repl : string) : string :=
  match s with
  | "" => ""
  | String c r =>
      match skip with
      | S k => replaceAllFrom k r repl
      | O =>
          match footnoteMatchAt s with
          | Some (_, _, _, n) => repl ++ replaceAllFrom (n - 1) r repl
          | None => String c (replaceAllFrom 0 r repl)
          end
      end
  end.

Definition footnoteRegex_ReplaceAllString (s repl : string) : string :=
  replaceAllFrom 0 s repl.

End regexp.

(** ** The document tree ([types.go]) *)

Module TOCEntry.
Record t : Type := mk { Level : Z; Text : string }.
End TOCEntry.

Module Footnote.
Record t : Type := mk { Caller : string; Reference : string; Text : string }.
End Footnote.

Module Verse.
Record t : Type := mk { Number : Z; Text : string; Footnotes : slice Footnote.t }.
End Verse.

Module Section.
Record t : Type :=
  mk { Level : Z; Title : string; Reference : string; Verses : slice Verse.t }.

Definition withReference (s : t) (r : string) : t :=
  mk (Level s) (Title s) r (Verses s).
Definition withVerses (s : t) (vs : slice Verse.t) : t :=
  mk (Level s) (Title s) (Reference s) vs.
End Section.

Module Chapter.
Record t : Type := mk { Number : Z; Sections : slice Section.t }.

Definition withSections (c : t) (ss : slice Section.t) : t :=
  mk (Number c) ss.
End Chapter.

Module Document.
Record t : Type :=
  mk { ID : string;
       Header : string;
       TableOfContents : slice TOCEntry.t;
       MainTitle : string;
       Chapters : slice Chapter.t;
       ParsedAt : Z;
       SourceFile : string }.

Definition withID (d : t) (x : string) : t :=
  mk x (Header d) (TableOfContents d) (MainTitle d) (Chapters d)
     (ParsedAt d) (SourceFile d).
Definition withHeader (d : t) (x : string) : t :=
  mk (ID d) x (TableOfContents d) (MainTitle d) (Chapters d)
     (ParsedAt d) (SourceFile d).
Definition withTableOfContents (d : t) (x : slice TOCEntry.t) : t :=
  mk (ID d) (Header d) x (MainTitle d) (Chapters d)
     (ParsedAt d) (SourceFile d).
Definition withMainTitle (d : t) (x : string) : t :=
  mk (ID d) (Header d) (TableOfContents d) x (Chapters d)
     (ParsedAt d) (SourceFile d).
Definition withChapters (d : t) (x : slice Chapter.t) : t :=
  mk (ID d) (Header d) (TableOfContents d) (MainTitle d) x
     (ParsedAt d) (SourceFile d).
End Document.

Module Marker.
Record t : Type := mk { Tag : string; Content : string; Line : Z }.
End Marker.

Module ParseOptions.
Record t : Type :=
  mk { StrictMode : bool; IncludeFootnotes : bool; IncludeReferences : bool }.
End ParseOptions.

Definition DefaultParseOptions : ParseOptions.t :=
  ParseOptions.mk false true true.

(** ** Errors

    The parser builds its errors with [fmt.Errorf]; the embedding keeps
    what each message says. *)

Inductive errorKind : Type :=
| NotAMarker            (* line does not start with marker *)
| InvalidMarkerFormat   (* invalid marker format *)
| InvalidChapterNumber  (* invalid chapter number: ... *)
| InvalidVerseFormat    (* invalid verse format *)
| InvalidVerseNumber.   (* invalid verse number: ... *)

Inductive error : Type :=
| LineError (line : Z) (k : errorKind)      (* line N: ... *)
| UnknownMarker (line : Z) (tag : string)   (* line N: unknown marker ... *)
| InputReadFailure (e : bufio.ScanError).   (* error reading input: ... *)

Inductive result (E A : Type) : Type :=
| Ok (a : A)
| Err (e : E).
Arguments Ok {E A} a.
Arguments Err {E A} e.

(** ** The parser ([parser.go]) *)

(** The compiled patterns of a [Parser] are those of module [regexp]; a
    parser value holds its options. *)
Record Parser : Type := mkParser { options : ParseOptions.t }.

Definition NewParser (options : ParseOptions.t) : Parser := mkParser options.

Definition parseMarker (line : string) (lineNumber : Z) : result errorKind Marker.t :=
  if negb (strings.HasPrefix line "\") then Err NotAMarker
  else
    let matches := regexp.markerRegex_FindStringSubmatch line in
    if (List.length matches <? 3)%nat then Err InvalidMarkerFormat
    else
      Ok (Marker.mk (nth 1 matches "")
                    (strings.TrimSpace (nth 2 matches ""))
                    lineNumber).

Definition parseChapter (content : string) : result errorKind Z :=
  match strconv.Atoi (strings.TrimSpace content) with
  | None => Err InvalidChapterNumber
  | Some num => Ok num
  end.

Definition getSectionLevel (tag : string) : Z :=
  if String.eqb tag "s1" then 1%Z
  else if String.eqb tag "s2" then 2%Z
  else if String.eqb tag "s3" then 3%Z
  else 1%Z.

Definition extractFootnotes (text : string) : slice Footnote.t :=
  let matches := regexp.footnoteRegex_FindAllStringSubmatch text in
  fold_left
    (fun footnotes match_ =>
       if (4 <=? List.length match_)%nat
       then append footnotes
              (Footnote.mk (strings.TrimSpace (nth 1 match_ ""))
                           (strings.TrimSpace (nth 2 match_ ""))
                           (strings.TrimSpace (nth 3 match_ "")))
       else footnotes)
    matches make0.

(** The loop [for strings.Contains(cleaned, "  ") { cleaned =
    strings.ReplaceAll(cleaned, "  ", " ") }]. Every round shortens
    [cleaned], so a fuel of its length lets the loop run to its exit
    ([collapseSpaces_done]). *)
Fixpoint collapseLoop (fuel : nat) (cleaned : string) : string :=
  match fuel with
  | O => cleaned
  | S k =>
      if strings.Contains cleaned "  "
      then collapseLoop k (strings.ReplaceAll cleaned "  " " ")
      else cleaned
  end.

Definition collapseSpaces (cleaned : string) : string :=
  collapseLoop (String.length cleaned) cleaned.

Definition removeFootnoteMarkers (text : string) : string :=
  let cleaned := regexp.footnoteRegex_ReplaceAllString text "" in
  strings.TrimSpace (collapseSpaces cleaned).

Definition parseVerse (content : string) (includeFootnotes : bool)
  : result errorKind Verse.t :=
  let parts := strings.SplitN_space_2 content in
  if (List.length parts <? 1)%nat then Err InvalidVerseFormat
  else
    match strconv.Atoi (nth 0 parts "") with
    | None => Err InvalidVerseNumber
    | Some verseNum =>
        let verseText :=
          if (1 <? List.length parts)%nat then nth 1 parts "" else "" in
        if includeFootnotes
        then Ok (Verse.mk verseNum (removeFootnoteMarkers verseText)
                          (extractFootnotes verseText))
        else Ok (Verse.mk verseNum verseText make0)
    end.

(** The local variables of [Parse] that the loop updates. *)
Record state : Type :=
  mkState { doc : Document.t;
            currentChapter : option Chapter.t;
            currentSection : option Section.t }.

(** [if currentSection != nil && currentChapter != nil {
      currentChapter.Sections = append(currentChapter.Sections, *currentSection) }] *)
Definition saveSection (currentChapter : option Chapter.t)
    (currentSection : option Section.t) : option Chapter.t :=
  match currentSection, currentChapter with
  | Some section, Some chapter =>
      Some (Chapter.withSections chapter (append (Chapter.Sections chapter) section))
  | _, _ => currentChapter
  end.

(** [if currentChapter != nil { doc.Chapters = append(doc.Chapters, *currentChapter) }] *)
Definition saveChapter (doc : Document.t) (currentChapter : option Chapter.t)
  : Document.t :=
  match currentChapter with
  | Some chapter =>
      Document.withChapters doc (append (Document.Chapters doc) chapter)
  | None => doc
  end.

Definition appendTOC (doc : Document.t) (level : Z) (text : string) : Document.t :=
  Document.withTableOfContents doc
    (append (Document.TableOfContents doc) (TOCEntry.mk level text)).

(** The [switch marker.Tag] of the loop. *)
Definition handleMarker (p : Parser) (lineNumber : Z) (marker : Marker.t)
    (st : state) : result error state :=
  let tag := Marker.Tag marker in
  let content := Marker.Content marker in
  let '(mkState doc currentChapter currentSection) := st in
  if String.eqb tag "id" then
    Ok (mkState (Document.withID doc content) currentChapter currentSection)
  else if String.eqb tag "h" then
    Ok (mkState (Document.withHeader doc content) currentChapter currentSection)
  else if String.eqb tag "toc1" then
    Ok (mkState (appendTOC doc 1 content) currentChapter currentSection)
  else if String.eqb tag "toc2" then
    Ok (mkState (appendTOC doc 2 content) currentChapter currentSection)
  else if String.eqb tag "toc3" then
    Ok (mkState (appendTOC doc 3 content) currentChapter currentSection)
  else if String.eqb tag "mt1" then
    Ok (mkState (Document.withMainTitle doc content) currentChapter currentSection)
  else if String.eqb tag "c" then
    match parseChapter content with
    | Err e => Err (LineError lineNumber e)
    | Ok chapterNum =>
        let currentChapter := saveSection currentChapter currentSection in
        let doc := saveChapter doc currentChapter in
        Ok (mkState doc (Some (Chapter.mk chapterNum make0)) None)
    end
  else if String.eqb tag "s1" || String.eqb tag "s2" || String.eqb tag "s3" then
    let level := getSectionLevel tag in
    let section := Section.mk level content "" make0 in
    let currentChapter := saveSection currentChapter currentSection in
    Ok (mkState doc currentChapter (Some section))
  else if String.eqb tag "r" then
    if ParseOptions.IncludeReferences (options p) then
      match currentSection with
      | Some section =>
          Ok (mkState doc currentChapter
                (Some (Section.withReference section content)))
      | None => Ok (mkState doc currentChapter currentSection)
      end
    else Ok (mkState doc currentChapter currentSection)
  else if String.eqb tag "v" then
    match parseVerse content (ParseOptions.IncludeFootnotes (options p)) with
    | Err e => Err (LineError lineNumber e)
    | Ok verse =>
        let section :=
          match currentSection with
          | Some section => section
          | None => Section.mk 1 "" "" make0
          end in
        Ok (mkState doc currentChapter
              (Some (Section.withVerses section
                       (append (Section.Verses section) verse))))
    end
  else if ParseOptions.StrictMode (options p) then
    Err (UnknownMarker lineNumber tag)
  else Ok (mkState doc currentChapter currentSection).

(** One round of [for scanner.Scan() { ... }], after [lineNumber++]. *)
Definition handleLine (p : Parser) (lineNumber : Z) (text : string)
    (st : state) : result error state :=
  let line := strings.TrimSpace text in
  if String.eqb line "" then Ok st
  else
    match parseMarker line lineNumber with
    | Err e =>
        if ParseOptions.StrictMode (options p)
        then Err (LineError lineNumber e)
        else Ok st
    | Ok marker => handleMarker p lineNumber marker st
    end.

(** The loop over the scanner's tokens; [lineNumber] is the count of the
    lines read before [tokens]. *)
Fixpoint scanLoop (p : Parser) (lineNumber : Z) (tokens : list string)
    (st : state) : result error state :=
  match tokens with
  | [] => Ok st
  | text :: rest =>
      let lineNumber := wrapInt (lineNumber + 1) in
      match handleLine p lineNumber text st with
      | Err e => Err e
      | Ok st' => scanLoop p lineNumber rest st'
      end
  end.

(** [Parse]; [now] is the value of [time.Now()]. A fatal error returns no
    document. *)
Definition Parse (p : Parser) (reader : bufio.Reader) (sourceFile : string)
    (now : Z) : result error Document.t :=
  let doc := Document.mk "" "" nilSlice "" make0 now sourceFile in
  let scanner := bufio.NewScanner reader in
  match scanLoop p 0 (bufio.Tokens scanner) (mkState doc None None) with
  | Err e => Err e
  | Ok (mkState doc currentChapter currentSection) =>
      let currentChapter := saveSection currentChapter currentSection in
      let doc := saveChapter doc currentChapter in
      match bufio.Err scanner with
      | Some e => Err (InputReadFailure e)
      | None => Ok doc
      end
  end.

(** ** Reading the loop

    Notions the statements below are written with; each is defined from
    the functions of the parser. *)

(** What the loop makes of one token: a blank line, a line the tokenizer
    refuses, or a marker with its tag and content. *)
Inductive lineKind : Type :=
| Blank
| Untokenized (e : errorKind)
| Marked (tag content : string).

Definition classifyLine (text : string) : lineKind :=
  let line := strings.TrimSpace text in
  if String.eqb line "" then Blank
  else
    match parseMarker line 0 with
    | Err e => Untokenized e
    | Ok marker => Marked (Marker.Tag marker) (Marker.Content marker)
    end.

Definition hasTag (tags : list string) (text : string) : bool :=
  match classifyLine text with
  | Marked tag _ => existsb (String.eqb tag) tags
  | _ => false
  end.

(** The tags the [switch] of the loop has a case for. *)
Definition recognizedTags : list string :=
  ["id"; "h"; "toc1"; "toc2"; "toc3"; "mt1"; "c"; "s1"; "s2"; "s3"; "r"; "v"].

Definition isChapterLine : string -> bool := hasTag ["c"].
Definition isTOCLine : string -> bool := hasTag ["toc1"; "toc2"; "toc3"].

(** A line with a marker whose tag has no case. *)
Definition isUnknownLine (text : string) : bool :=
  match classifyLine text with
  | Marked tag _ => negb (existsb (String.eqb tag) recognizedTags)
  | _ => false
  end.

(** The number of a chapter line, when its content is one. *)
Definition chapterNumberOf (text : string) : option Z :=
  match classifyLine text with
  | Marked tag content =>
      if String.eqb tag "c" then
        match parseChapter content with
        | Ok num => Some num
        | Err _ => None
        end
      else None
  | _ => None
  end.

Definition initialState (now : Z) (sourceFile : string) : state :=
  mkState (Document.mk "" "" nilSlice "" make0 now sourceFile) None None.

(** A line is fatal for a parser when the loop body fails on it; whether it
    does depends on neither the state nor the line number
    ([fatal_spec]). *)
Definition fatal (p : Parser) (text : string) : bool :=
  match handleLine p 0 text (initialState 0 "") with
  | Err _ => true
  | Ok _ => false
  end.

Definition errorLine (e : error) : option Z :=
  match e with
  | LineError line _ => Some line
  | UnknownMarker line _ => Some line
  | InputReadFailure _ => None
  end.

(** The chapters a state holds: those saved in the document, then the open
    one. *)
Definition chaptersOf (st : state) : list Chapter.t :=
  (elements (Document.Chapters (doc st)) ++
   match currentChapter st with
   | Some chapter => [chapter]
   | None => []
   end)%list.

(** [lineNumber] after [k] more lines. *)
Fixpoint lineNumberAfter (k : nat) (lineNumber : Z) : Z :=
  match k with
  | O => lineNumber
  | S k' => lineNumberAfter k' (wrapInt (lineNumber + 1))
  end.

(** * Lemmas *)

(** ** Integers *)

Lemma wrapInt_id (z : Z) : (minInt <= z <= maxInt)%Z -> wrapInt z = z.
Proof.
  unfold minInt, maxInt, wrapInt. intros H.
  rewrite Z.mod_small; lia.
Qed.

Lemma lineNumberAfter_small (k : nat) (n : Z) :
  (0 <= n)%Z -> (n + Z.of_nat k <= maxInt)%Z ->
  lineNumberAfter k n = (n + Z.of_nat k)%Z.
Proof.
  revert n. induction k as [|k IH]; intros n Hn Hk; simpl.
  - lia.
  - rewrite wrapInt_id by (unfold minInt, maxInt in *; lia).
    rewrite IH by lia. lia.
Qed.

(** ** The loop *)

Lemma handleLine_classify (p : Parser) (n : Z) (text : string) (st : state) :
  handleLine p n text st =
  match classifyLine text with
  | Blank => Ok st
  | Untokenized e =>
      if ParseOptions.StrictMode (options p) then Err (LineError n e) else Ok st
  | Marked tag content => handleMarker p n (Marker.mk tag content n) st
  end.
Proof.
  unfold handleLine, classifyLine, parseMarker.
  destruct (String.eqb (strings.TrimSpace text) ""); [reflexivity|].
  destruct (negb _); [reflexivity|].
  destruct (_ <? 3)%nat; reflexivity.
Qed.

Lemma scanLoop_app (p : Parser) (pre post : list string) :
  forall (n : Z) (st : state),
    scanLoop p n (pre ++ post)%list st =
    match scanLoop p n pre st with
    | Err e => Err e
    | Ok st' => scanLoop p (lineNumberAfter (List.length pre) n) post st'
    end.
Proof.
  induction pre as [|t pre IH]; intros n st; simpl.
  - reflexivity.
  - destruct (handleLine p (wrapInt (n + 1)) t st); [apply IH | reflexivity].
Qed.

(** The [switch], case by case. *)

Section Cases.

Variables (p : Parser) (n l : Z) (content : string).
Variables (d : Document.t) (ch : option Chapter.t) (sec : option Section.t).

Let st := mkState d ch sec.

Lemma handleMarker_id :
  handleMarker p n (Marker.mk "id" content l) st
  = Ok (mkState (Document.withID d content) ch sec).
Proof. reflexivity. Qed.

Lemma handleMarker_h :
  handleMarker p n (Marker.mk "h" content l) st
  = Ok (mkState (Document.withHeader d content) ch sec).
Proof. reflexivity. Qed.

Lemma handleMarker_toc1 :
  handleMarker p n (Marker.mk "toc1" content l) st
  = Ok (mkState (appendTOC d 1 content) ch sec).
Proof. reflexivity. Qed.

Lemma handleMarker_toc2 :
  handleMarker p n (Marker.mk "toc2" content l) st
  = Ok (mkState (appendTOC d 2 content) ch sec).
Proof. reflexivity. Qed.

Lemma handleMarker_toc3 :
  handleMarker p n (Marker.mk "toc3" content l) st
  = Ok (mkState (appendTOC d 3 content) ch sec).
Proof. reflexivity. Qed.

Lemma handleMarker_mt1 :
  handleMarker p n (Marker.mk "mt1" content l) st
  = Ok (mkState (Document.withMainTitle d content) ch sec).
Proof. reflexivity. Qed.

Lemma handleMarker_c :
  handleMarker p n (Marker.mk "c" content l) st
  = match parseChapter content with
    | Err e => Err (LineError n e)
    | Ok chapterNum =>
        Ok (mkState (saveChapter d (saveSection ch sec))
                    (Some (Chapter.mk chapterNum make0)) None)
    end.
Proof. reflexivity. Qed.

Lemma handleMarker_s (tag : string) :
  In tag ["s1"; "s2"; "s3"] ->
  handleMarker p n (Marker.mk tag content l) st
  = Ok (mkState d (saveSection ch sec)
          (Some (Section.mk (getSectionLevel tag) content "" make0))).
Proof.
  simpl. intros [H|[H|[H|[]]]]; subst tag; reflexivity.
Qed.

Lemma handleMarker_r :
  handleMarker p n (Marker.mk "r" content l) st
  = Ok (mkState d ch
          (if ParseOptions.IncludeReferences (options p)
           then option_map (fun section => Section.withReference section content) sec
           else sec)).
Proof.
  unfold st. cbn. destruct (ParseOptions.IncludeReferences (options p)), sec;
    reflexivity.
Qed.

Lemma handleMarker_v :
  handleMarker p n (Marker.mk "v" content l) st
  = match parseVerse content (ParseOptions.IncludeFootnotes (options p)) with
    | Err e => Err (LineError n e)
    | Ok verse =>
        let section :=
          match sec with
          | Some section => section
          | None => Section.mk 1 "" "" make0
          end in
        Ok (mkState d ch
              (Some (Section.withVerses section
                       (append (Section.Verses section) verse))))
    end.
Proof. reflexivity. Qed.

Lemma handleMarker_unknown (tag : string) :
  existsb (String.eqb tag) recognizedTags = false ->
  handleMarker p n (Marker.mk tag content l) st
  = if ParseOptions.StrictMode (options p)
    then Err (UnknownMarker n tag)
    else Ok st.
Proof.
  unfold recognizedTags. simpl. intros H.
  repeat (apply orb_false_elim in H; destruct H as [? H]).
  unfold handleMarker, st. simpl.
  repeat match goal with E : String.eqb _ _ = false |- _ => rewrite E; clear E end.
  reflexivity.
Qed.

End Cases.

Arguments handleMarker : simpl never.

(** Splits on the tag: one goal for each case of the [switch], the last
    for a tag without a case. *)
Ltac tag_cases tag :=
  let H := fresh "Hrec" in
  let t := fresh "t" in
  let Hin := fresh "Hin" in
  let Heq := fresh "Heq" in
  destruct (existsb (String.eqb tag) recognizedTags) eqn:H;
  [ apply existsb_exists in H; destruct H as [t [Hin Heq]];
    apply String.eqb_eq in Heq; subst t; unfold recognizedTags in Hin;
    simpl in Hin;
    repeat (destruct Hin as [Hin|Hin]; [subst tag|]); [..|contradiction]
  | ].

Ltac rewrite_case :=
  first
    [ rewrite handleMarker_id | rewrite handleMarker_h
    | rewrite handleMarker_toc1 | rewrite handleMarker_toc2
    | rewrite handleMarker_toc3 | rewrite handleMarker_mt1
    | rewrite handleMarker_c
    | rewrite handleMarker_s by (simpl; tauto)
    | rewrite handleMarker_r | rewrite handleMarker_v ].

(** Whether the loop body fails on a line depends on the parser and the
    line alone, and a failure carries the number of the line. *)
Lemma fatal_spec (p : Parser) (n : Z) (text : string) (st : state) :
  (fatal p text = true ->
   exists e, handleLine p n text st = Err e /\ errorLine e = Some n) /\
  (fatal p text = false -> exists st', handleLine p n text st = Ok st').
Proof.
  unfold fatal, initialState. rewrite !handleLine_classify.
  destruct st as [d ch sec].
  destruct (classifyLine text) as [|e|tag content].
  - split; [discriminate | eauto].
  - destruct (ParseOptions.StrictMode (options p)); split;
      try discriminate; eauto.
  - tag_cases tag.
    13: { rewrite !handleMarker_unknown by assumption.
          destruct (ParseOptions.StrictMode (options p)); split;
            try discriminate; eauto. }
    all: repeat rewrite_case.
    all: try (split; [discriminate | eauto]).
    + destruct (parseChapter content); split; try discriminate; eauto.
    + destruct (parseVerse content _); split; try discriminate; eauto.
Qed.

Definition noFatal (p : Parser) (tokens : list string) : bool :=
  forallb (fun text => negb (fatal p text)) tokens.

Lemma handleLine_blank (p : Parser) (n : Z) (st : state) :
  handleLine p n "" st = Ok st.
Proof. reflexivity. Qed.

Lemma handleLine_err_line (p : Parser) (n : Z) (text : string) (st : state) (e : error) :
  handleLine p n text st = Err e -> fatal p text = true /\ errorLine e = Some n.
Proof.
  intros H. destruct (fatal_spec p n text st) as [Ht Hf].
  destruct (fatal p text).
  - destruct (Ht eq_refl) as [e' [He' Hl]]. split; [reflexivity|congruence].
  - destruct (Hf eq_refl) as [st' Hst']. congruence.
Qed.

Lemma scanLoop_noFatal (p : Parser) (tokens : list string) :
  noFatal p tokens = true ->
  forall (n : Z) (st : state), exists st', scanLoop p n tokens st = Ok st'.
Proof.
  unfold noFatal.
  induction tokens as [|t ts IH]; simpl; intros H n st.
  - eauto.
  - apply andb_prop in H. destruct H as [Ht Hts].
    apply negb_true_iff in Ht.
    destruct (proj2 (fatal_spec p (wrapInt (n + 1)) t st) Ht) as [st' ->].
    apply IH, Hts.
Qed.

Lemma scanLoop_err_line (p : Parser) (tokens : list string) :
  forall (n : Z) (st : state) (e : error),
    scanLoop p n tokens st = Err e -> exists ln, errorLine e = Some ln.
Proof.
  induction tokens as [|t ts IH]; simpl; intros n st e H.
  - discriminate.
  - destruct (handleLine p (wrapInt (n + 1)) t st) as [st'|e'] eqn:Ht.
    + eapply IH, H.
    + injection H as <-. apply handleLine_err_line in Ht. destruct Ht; eauto.
Qed.

Lemma lineNumberAfter_S (k : nat) :
  forall m, lineNumberAfter (S k) m = wrapInt (lineNumberAfter k m + 1).
Proof.
  induction k as [|k IH]; intros m; [reflexivity|].
  change (lineNumberAfter (S (S k)) m)
    with (lineNumberAfter (S k) (wrapInt (m + 1))).
  rewrite IH. reflexivity.
Qed.

(** A fatal line stops the loop: with an earlier error, or with its own
    when the loop reaches it. *)
Lemma scanLoop_fatal (p : Parser) (pre post : list string) (text : string)
    (n : Z) (st : state) :
  fatal p text = true ->
  (exists e ln, scanLoop p n (pre ++ text :: post)%list st = Err e
                /\ errorLine e = Some ln) /\
  (noFatal p pre = true ->
   exists st',
     scanLoop p n pre st = Ok st' /\
     scanLoop p n (pre ++ text :: post)%list st
     = handleLine p (lineNumberAfter (S (List.length pre)) n) text st').
Proof.
  intros Hf. rewrite scanLoop_app. split.
  - destruct (scanLoop p n pre st) as [st'|e] eqn:Hpre.
    + simpl.
      destruct (proj1 (fatal_spec p (wrapInt (lineNumberAfter (List.length pre) n + 1))
                         text st') Hf) as [e [-> He]].
      eauto.
    + apply scanLoop_err_line in Hpre. destruct Hpre; eauto.
  - intros Hpre. destruct (scanLoop_noFatal p pre Hpre n st) as [st' Hst'].
    exists st'. split; [assumption|]. rewrite Hst'.
    rewrite lineNumberAfter_S. cbn [scanLoop].
    destruct (proj1 (fatal_spec p (wrapInt (lineNumberAfter (List.length pre) n + 1))
                       text st') Hf) as [e [-> He]].
    reflexivity.
Qed.

(** Two lines on which the loop body agrees can stand for one another. *)
Lemma scanLoop_replace (p : Parser) (pre post : list string) (text text' : string) :
  (forall n st, handleLine p n text st = handleLine p n text' st) ->
  forall n st,
    scanLoop p n (pre ++ text :: post)%list st
    = scanLoop p n (pre ++ text' :: post)%list st.
Proof.
  intros H n st. rewrite !scanLoop_app.
  destruct (scanLoop p n pre st); [|reflexivity].
  simpl. rewrite H. reflexivity.
Qed.

Lemma Parse_unfold (p : Parser) (reader : bufio.Reader) (sourceFile : string) (now : Z) :
  Parse p reader sourceFile now =
  match scanLoop p 0 (bufio.Tokens (bufio.NewScanner reader))
          (initialState now sourceFile) with
  | Err e => Err e
  | Ok st =>
      match bufio.Err (bufio.NewScanner reader) with
      | Some e => Err (InputReadFailure e)
      | None =>
          Ok (saveChapter (doc st)
                (saveSection (currentChapter st) (currentSection st)))
      end
  end.
Proof.
  unfold Parse, initialState.
  destruct (scanLoop _ _ _ _) as [[d ch sec]|e]; reflexivity.
Qed.

Lemma lineNumber_at (pre : list string) :
  (Z.of_nat (List.length pre) < maxInt)%Z ->
  lineNumberAfter (S (List.length pre)) 0 = (Z.of_nat (List.length pre) + 1)%Z.
Proof.
  intros H. rewrite lineNumberAfter_small; lia.
Qed.

Lemma isUnknownLine_handle (p : Parser) (n : Z) (text : string) (st : state) :
  isUnknownLine text = true ->
  exists tag content,
    classifyLine text = Marked tag content /\
    handleLine p n text st
    = if ParseOptions.StrictMode (options p)
      then Err (UnknownMarker n tag) else Ok st.
Proof.
  unfold isUnknownLine. rewrite handleLine_classify.
  destruct (classifyLine text) as [| |tag content]; try discriminate.
  intros H. apply negb_true_iff in H.
  exists tag, content. split; [reflexivity|].
  destruct st. apply handleMarker_unknown, H.
Qed.

(** ** Strings *)

Arguments strings.isSpaceRune : simpl never.

(** [s] starts with a white-space rune. *)
Definition startsWithSpace (s : string) : bool :=
  match s with
  | "" => false
  | String a r =>
      strings.isSpaceRune (String a "") ||
      match r with
      | "" => false
      | String b r2 =>
          strings.isSpaceRune (String a (String b "")) ||
          match r2 with
          | "" => false
          | String c _ => strings.isSpaceRune (String a (String b (String c "")))
          end
      end
  end.

Lemma append_nil_r (s : string) : s ++ "" = s.
Proof. induction s; simpl; congruence. Qed.

Lemma append_assoc (a b c : string) : (a ++ b) ++ c = a ++ (b ++ c).
Proof. induction a; simpl; congruence. Qed.


Lemma allChars_append (f : ascii -> bool) (a b : string) :
  allChars f (a ++ b) = allChars f a && allChars f b.
Proof.
  induction a as [|c a IH]; simpl; [reflexivity|].
  rewrite IH. apply andb_assoc.
Qed.

Lemma trimLeftSpace_fixed (s : string) :
  startsWithSpace s = false -> strings.trimLeftSpace s = s.
Proof.
  destruct s as [|a [|b [|c r]]]; simpl; intros H;
    repeat (apply orb_false_elim in H; destruct H as [? H]);
    repeat match goal with E : strings.isSpaceRune _ = false |- _ => rewrite E; clear E end;
    reflexivity.
Qed.

Lemma trimLeftSpace_suffix (s : string) :
  exists p, s = p ++ strings.trimLeftSpace s.
Proof.
  assert (H : forall n s, (String.length s <= n)%nat ->
                          exists p, s = p ++ strings.trimLeftSpace s).
  { clear s. induction n as [|n IH]; intros s Hn.
    - destruct s; [exists ""; reflexivity | simpl in Hn; lia].
    - destruct s as [|a r]; [exists ""; reflexivity|].
      simpl in Hn. cbn [strings.trimLeftSpace].
      destruct (strings.isSpaceRune (String a "")).
      { destruct (IH r ltac:(lia)) as [q Hq]. exists (String a q).
        simpl. congruence. }
      destruct r as [|b r2]; [exists ""; reflexivity|].
      simpl in Hn.
      destruct (strings.isSpaceRune (String a (String b ""))).
      { destruct (IH r2 ltac:(lia)) as [q Hq]. exists (String a (String b q)).
        simpl. congruence. }
      destruct r2 as [|c r3]; [exists ""; reflexivity|].
      simpl in Hn.
      destruct (strings.isSpaceRune (String a (String b (String c "")))).
      { destruct (IH r3 ltac:(lia)) as [q Hq].
        exists (String a (String b (String c q))). simpl. congruence. }
      exists ""; reflexivity. }
  eapply H. reflexivity.
Qed.

Lemma trimLeftSpace_trimmed (s : string) :
  startsWithSpace (strings.trimLeftSpace s) = false.
Proof.
  assert (H : forall n s, (String.length s <= n)%nat ->
                          startsWithSpace (strings.trimLeftSpace s) = false).
  { clear s. induction n as [|n IH]; intros s Hn.
    - destruct s; [reflexivity | simpl in Hn; lia].
    - destruct s as [|a r]; [reflexivity|].
      simpl in Hn. cbn [strings.trimLeftSpace].
      destruct (strings.isSpaceRune (String a "")) eqn:E1.
      { apply IH. lia. }
      destruct r as [|b r2]; [simpl; rewrite E1; reflexivity|].
      simpl in Hn.
      destruct (strings.isSpaceRune (String a (String b ""))) eqn:E2.
      { apply IH. lia. }
      destruct r2 as [|c r3]; [simpl; rewrite E1, E2; reflexivity|].
      simpl in Hn.
      destruct (strings.isSpaceRune (String a (String b (String c "")))) eqn:E3.
      { apply IH. lia. }
      simpl. rewrite E1, E2, E3. reflexivity. }
  eapply H. reflexivity.
Qed.

Lemma trimRightSpace_prefix (s : string) :
  exists q, s = strings.trimRightSpace s ++ q.
Proof.
  induction s as [|a r [q Hq]]; [exists ""; reflexivity|].
  simpl. destruct (strings.isSpaceRune _).
  - exists (String a r). reflexivity.
  - exists q. simpl. congruence.
Qed.

Lemma trimRightSpace_idem (s : string) :
  strings.trimRightSpace (strings.trimRightSpace s) = strings.trimRightSpace s.
Proof.
  induction s as [|a r IH]; [reflexivity|].
  simpl. destruct (strings.isSpaceRune (String a (strings.trimRightSpace r))) eqn:E.
  - reflexivity.
  - simpl. rewrite IH, E. reflexivity.
Qed.

Lemma startsWithSpace_append (u q : string) :
  startsWithSpace u = true -> startsWithSpace (u ++ q) = true.
Proof.
  destruct u as [|a [|b [|c u]]]; simpl; try discriminate.
  - rewrite orb_false_r. intros ->. reflexivity.
  - rewrite orb_false_r. intros H. apply orb_prop in H. destruct H as [->| ->].
    + reflexivity.
    + destruct q; simpl; rewrite ?orb_true_r; reflexivity.
  - trivial.
Qed.

Lemma TrimSpace_trimmed (s : string) :
  startsWithSpace (strings.TrimSpace s) = false.
Proof.
  unfold strings.TrimSpace.
  destruct (trimRightSpace_prefix (strings.trimLeftSpace s)) as [q Hq].
  destruct (startsWithSpace (strings.trimRightSpace (strings.trimLeftSpace s))) eqn:E;
    [|reflexivity].
  apply (startsWithSpace_append _ q) in E. rewrite <- Hq in E.
  rewrite trimLeftSpace_trimmed in E. discriminate.
Qed.

Lemma TrimSpace_idem (s : string) :
  strings.TrimSpace (strings.TrimSpace s) = strings.TrimSpace s.
Proof.
  pose proof (TrimSpace_trimmed s) as H.
  unfold strings.TrimSpace at 1.
  rewrite (trimLeftSpace_fixed _ H).
  apply trimRightSpace_idem.
Qed.

(** [TrimSpace] cuts a piece out of its argument. *)
Lemma TrimSpace_infix (s : string) :
  exists p q, s = p ++ strings.TrimSpace s ++ q.
Proof.
  destruct (trimLeftSpace_suffix s) as [p Hp].
  destruct (trimRightSpace_prefix (strings.trimLeftSpace s)) as [q Hq].
  exists p, q. unfold strings.TrimSpace. congruence.
Qed.

Lemma TrimSpace_allChars (f : ascii -> bool) (s : string) :
  allChars f s = true -> allChars f (strings.TrimSpace s) = true.
Proof.
  destruct (TrimSpace_infix s) as [p [q H]]. intros Hs.
  rewrite H in Hs. rewrite !allChars_append in Hs.
  apply andb_prop in Hs. destruct Hs as [_ Hs].
  apply andb_prop in Hs. tauto.
Qed.

Lemma isRegexSpace_isSpaceRune (c : ascii) :
  isRegexSpace c = true -> strings.isSpaceRune (String c "") = true.
Proof.
  destruct c as [[] [] [] [] [] [] [] []]; simpl; try discriminate; reflexivity.
Qed.

Lemma TrimSpace_skip (c : ascii) (s : string) :
  strings.isSpaceRune (String c "") = true ->
  strings.TrimSpace (String c s) = strings.TrimSpace s.
Proof.
  intros H. unfold strings.TrimSpace. cbn [strings.trimLeftSpace].
  rewrite H. reflexivity.
Qed.

Lemma TrimSpace_dropWhile (s : string) :
  strings.TrimSpace (dropWhile isRegexSpace s) = strings.TrimSpace s.
Proof.
  induction s as [|c s IH]; [reflexivity|].
  simpl. destruct (isRegexSpace c) eqn:E; [|reflexivity].
  rewrite IH. symmetry. apply TrimSpace_skip, isRegexSpace_isSpaceRune, E.
Qed.

Lemma dropWhile_trimmed (s : string) :
  startsWithSpace s = false -> dropWhile isRegexSpace s = s.
Proof.
  destruct s as [|c s]; [reflexivity|].
  simpl. intros H. apply orb_false_elim in H. destruct H as [H _].
  destruct (isRegexSpace c) eqn:E; [|reflexivity].
  apply isRegexSpace_isSpaceRune in E. congruence.
Qed.

Lemma span_append (f : ascii -> bool) (s : string) :
  s = fst (span f s) ++ snd (span f s).
Proof.
  induction s as [|c s IH]; [reflexivity|].
  simpl. destruct (f c); [|reflexivity].
  destruct (span f s). simpl in *. congruence.
Qed.

Lemma span_all (f : ascii -> bool) (s : string) :
  allChars f (fst (span f s)) = true.
Proof.
  induction s as [|c s IH]; [reflexivity|].
  simpl. destruct (f c) eqn:E; [|reflexivity].
  destruct (span f s). simpl in *. rewrite E. assumption.
Qed.

Lemma span_stop (f : ascii -> bool) (a : string) (c : ascii) (r : string) :
  allChars f a = true -> f c = false ->
  span f (a ++ String c r) = (a, String c r).
Proof.
  induction a as [|x a IH]; simpl; intros Ha Hc.
  - rewrite Hc. reflexivity.
  - apply andb_prop in Ha. destruct Ha as [-> Ha].
    rewrite (IH Ha Hc). reflexivity.
Qed.

Lemma span_whole (f : ascii -> bool) (a : string) :
  allChars f a = true -> span f a = (a, "").
Proof.
  induction a as [|x a IH]; simpl; intros Ha; [reflexivity|].
  apply andb_prop in Ha. destruct Ha as [-> Ha].
  rewrite (IH Ha). reflexivity.
Qed.

(** ** Numbers *)

Definition isNumChar (c : ascii) : bool :=
  isDigit c || Ascii.eqb c "+" || Ascii.eqb c "-".

(** The six ASCII white-space bytes. *)
Definition isSpaceByte (c : ascii) : bool := strings.isSpaceRune (String c "").

(** The first white-space-delimited token of [s]. *)
Definition firstField (s : string) : string :=
  fst (span (fun c => negb (isSpaceByte c)) (dropWhile isSpaceByte s)).

Lemma allChars_impl (f g : ascii -> bool) (s : string) :
  (forall c, f c = true -> g c = true) ->
  allChars f s = true -> allChars g s = true.
Proof.
  intros H. induction s as [|c s IH]; simpl; [reflexivity|].
  intros Hs. apply andb_prop in Hs. destruct Hs as [Hc Hs].
  rewrite (H c Hc), (IH Hs). reflexivity.
Qed.

Lemma sign_cons (c : ascii) (r : string) :
  strconv.sign (String c r) =
  if Ascii.eqb c "-" then (true, r)
  else if Ascii.eqb c "+" then (false, r)
  else (false, String c r).
Proof.
  destruct c as [[] [] [] [] [] [] [] []]; reflexivity.
Qed.

Lemma digits_all (s : string) :
  forall acc v, strconv.digits acc s = Some v -> allChars isDigit s = true.
Proof.
  induction s as [|c s IH]; simpl; intros acc v H; [reflexivity|].
  destruct (isDigit c); [|discriminate].
  simpl. eapply IH, H.
Qed.

Lemma Atoi_chars (s : string) (n : Z) :
  strconv.Atoi s = Some n -> s <> "" /\ allChars isNumChar s = true.
Proof.
  unfold strconv.Atoi. destruct s as [|c r]; [discriminate|].
  rewrite sign_cons. intros H. split; [discriminate|].
  assert (Hd : forall x, allChars isDigit x = true -> allChars isNumChar x = true).
  { intros x. apply allChars_impl. intros y Hy.
    unfold isNumChar. rewrite Hy. reflexivity. }
  destruct (Ascii.eqb c "-") eqn:Em; [|destruct (Ascii.eqb c "+") eqn:Ep].
  - destruct r as [|c' r']; [discriminate|].
    destruct (strconv.digits 0 (String c' r')) eqn:E; [|discriminate].
    apply digits_all in E. apply Hd in E.
    cbn [allChars]. unfold isNumChar at 1. rewrite Em, orb_true_r. exact E.
  - destruct r as [|c' r']; [discriminate|].
    destruct (strconv.digits 0 (String c' r')) eqn:E; [|discriminate].
    apply digits_all in E. apply Hd in E.
    cbn [allChars]. unfold isNumChar at 1. rewrite Ep, orb_true_r. exact E.
  - destruct (strconv.digits 0 (String c r)) eqn:E; [|discriminate].
    apply digits_all in E. apply Hd in E. exact E.
Qed.

Lemma isNumChar_not_space (c : ascii) :
  isNumChar c = true -> isSpaceByte c = false.
Proof.
  destruct c as [[] [] [] [] [] [] [] []]; vm_compute; congruence.
Qed.

Lemma cutSpace_some (s a b : string) :
  strings.cutSpace s = Some (a, b) -> s = a ++ String " " b.
Proof.
  revert a. induction s as [|c s IH]; simpl; intros a H; [discriminate|].
  destruct (Ascii.eqb_spec c " ").
  - injection H as <- <-. subst c. reflexivity.
  - destruct (strings.cutSpace s) as [[a' b']|]; [|discriminate].
    injection H as <- <-. simpl. f_equal. apply IH. reflexivity.
Qed.

Lemma cutSpace_append (a b : string) :
  allChars (fun c => negb (Ascii.eqb c " ")) a = true ->
  strings.cutSpace (a ++ String " " b) = Some (a, b).
Proof.
  induction a as [|c a IH]; simpl; intros H; [reflexivity|].
  apply andb_prop in H. destruct H as [Hc Ha].
  apply negb_true_iff in Hc. rewrite Hc, (IH Ha). reflexivity.
Qed.

Lemma cutSpace_none (a : string) :
  allChars (fun c => negb (Ascii.eqb c " ")) a = true ->
  strings.cutSpace a = None.
Proof.
  induction a as [|c a IH]; simpl; intros H; [reflexivity|].
  apply andb_prop in H. destruct H as [Hc Ha].
  apply negb_true_iff in Hc. rewrite Hc, (IH Ha). reflexivity.
Qed.

Lemma isNumChar_not_blank (c : ascii) :
  isNumChar c = true -> negb (Ascii.eqb c " ") = true.
Proof.
  destruct c as [[] [] [] [] [] [] [] []]; vm_compute; congruence.
Qed.

(** A number token is its own first field, alone or in front of a space. *)
Lemma firstField_number (a : string) (rest : string) :
  a <> "" -> allChars isNumChar a = true ->
  firstField a = a /\ firstField (a ++ String " " rest) = a.
Proof.
  intros Hne Ha. unfold firstField.
  assert (Hns : allChars (fun c => negb (isSpaceByte c)) a = true).
  { eapply allChars_impl; [|exact Ha].
    intros c Hc. rewrite (isNumChar_not_space c Hc). reflexivity. }
  destruct a as [|c a]; [contradiction|].
  cbn [allChars] in Ha. apply andb_prop in Ha. destruct Ha as [Hc _].
  cbn [String.append dropWhile]. rewrite (isNumChar_not_space c Hc).
  split.
  - rewrite span_whole by exact Hns. reflexivity.
  - change (String c (a ++ String " " rest)) with (String c a ++ String " " rest).
    rewrite span_stop; [reflexivity | exact Hns | reflexivity].
Qed.

Lemma parseVerse_number (content : string) (b : bool) :
  strconv.Atoi (firstField content) = None ->
  parseVerse content b = Err InvalidVerseNumber.
Proof.
  intros H. unfold parseVerse, strings.SplitN_space_2.
  destruct (strings.cutSpace content) as [[a rest]|] eqn:E.
  - simpl. destruct (strconv.Atoi a) as [n|] eqn:Ea; [|reflexivity].
    apply cutSpace_some in E. subst content.
    destruct (Atoi_chars _ _ Ea) as [Hne Hall].
    rewrite (proj2 (firstField_number a rest Hne Hall)) in H. congruence.
  - simpl. destruct (strconv.Atoi content) as [n|] eqn:Ea; [|reflexivity].
    destruct (Atoi_chars _ _ Ea) as [Hne Hall].
    rewrite (proj1 (firstField_number content "" Hne Hall)) in H. congruence.
Qed.

(** The content of a marker is trimmed. *)
Lemma classifyLine_content (text tag content : string) :
  classifyLine text = Marked tag content ->
  strings.TrimSpace content = content.
Proof.
  unfold classifyLine, parseMarker.
  destruct (String.eqb _ ""); [discriminate|].
  destruct (negb _); [discriminate|].
  destruct (_ <? 3)%nat; [discriminate|].
  simpl. intros H. injection H as _ <-. apply TrimSpace_idem.
Qed.

(** ** Fatal and harmless lines *)

Definition isNone {A : Type} (o : option A) : bool :=
  match o with
  | None => true
  | Some _ => false
  end.

(** A chapter line whose content is no integer; a verse line whose first
    white-space-delimited token is no integer. *)
Definition badChapterLine (text : string) : bool :=
  match classifyLine text with
  | Marked tag content => String.eqb tag "c" && isNone (strconv.Atoi content)
  | _ => false
  end.

Definition badVerseLine (text : string) : bool :=
  match classifyLine text with
  | Marked tag content =>
      String.eqb tag "v" && isNone (strconv.Atoi (firstField content))
  | _ => false
  end.

Lemma badChapterLine_handle (p : Parser) (n : Z) (text : string) (st : state) :
  badChapterLine text = true ->
  handleLine p n text st = Err (LineError n InvalidChapterNumber).
Proof.
  unfold badChapterLine. rewrite handleLine_classify.
  destruct (classifyLine text) as [| |tag content] eqn:E; try discriminate.
  intros H. apply andb_prop in H. destruct H as [Ht Hn].
  apply String.eqb_eq in Ht. subst tag.
  destruct st. rewrite handleMarker_c. unfold parseChapter.
  rewrite (classifyLine_content _ _ _ E).
  destruct (strconv.Atoi content); [discriminate|reflexivity].
Qed.

Lemma badVerseLine_handle (p : Parser) (n : Z) (text : string) (st : state) :
  badVerseLine text = true ->
  handleLine p n text st = Err (LineError n InvalidVerseNumber).
Proof.
  unfold badVerseLine. rewrite handleLine_classify.
  destruct (classifyLine text) as [| |tag content] eqn:E; try discriminate.
  intros H. apply andb_prop in H. destruct H as [Ht Hn].
  apply String.eqb_eq in Ht. subst tag.
  destruct st. rewrite handleMarker_v.
  rewrite parseVerse_number; [reflexivity|].
  destruct (strconv.Atoi (firstField content)); [discriminate|reflexivity].
Qed.

Lemma handleLine_fatal (p : Parser) (n : Z) (text : string) (st : state) (e : error) :
  handleLine p n text st = Err e -> fatal p text = true.
Proof. intros H. apply handleLine_err_line in H. tauto. Qed.

Lemma handleLine_not_fatal (p : Parser) (n : Z) (text : string) (st st' : state) :
  handleLine p n text st = Ok st' -> fatal p text = false.
Proof.
  intros H. destruct (fatal p text) eqn:E; [|reflexivity].
  destruct (proj1 (fatal_spec p n text st) E) as [e [He _]]. congruence.
Qed.

Lemma noFatal_app (p : Parser) (a b : list string) :
  noFatal p (a ++ b)%list = noFatal p a && noFatal p b.
Proof. apply forallb_app. Qed.

(** A fatal line at the place [pre] leaves: [Parse] fails, and with the
    error of that line when no line of [pre] is fatal. *)
Lemma Parse_fatal (p : Parser) (reader : bufio.Reader) (pre post : list string)
    (text : string) (sourceFile : string) (now : Z) (mkErr : Z -> error) :
  bufio.Tokens (bufio.NewScanner reader) = (pre ++ text :: post)%list ->
  (forall n st, handleLine p n text st = Err (mkErr n)) ->
  (exists e ln, Parse p reader sourceFile now = Err e /\ errorLine e = Some ln) /\
  (noFatal p pre = true -> (Z.of_nat (List.length pre) < maxInt)%Z ->
   Parse p reader sourceFile now
   = Err (mkErr (Z.of_nat (List.length pre) + 1)%Z)).
Proof.
  intros Htok Herr. rewrite Parse_unfold, Htok.
  assert (Hf : fatal p text = true).
  { eapply handleLine_fatal. apply (Herr 0%Z (initialState 0 "")). }
  destruct (scanLoop_fatal p pre post text 0 (initialState now sourceFile) Hf)
    as [[e [ln [He Hln]]] Hreach].
  split.
  - rewrite He. eauto.
  - intros Hpre Hlen. destruct (Hreach Hpre) as [st' [_ ->]].
    rewrite Herr, lineNumber_at by assumption. reflexivity.
Qed.

(** A line the loop body passes over can be blanked. *)
Lemma Parse_skip (p : Parser) (reader reader' : bufio.Reader)
    (pre post : list string) (text : string) (sourceFile : string) (now : Z) :
  bufio.Tokens (bufio.NewScanner reader) = (pre ++ text :: post)%list ->
  bufio.Tokens (bufio.NewScanner reader') = (pre ++ "" :: post)%list ->
  bufio.Err (bufio.NewScanner reader') = bufio.Err (bufio.NewScanner reader) ->
  (forall n st, handleLine p n text st = Ok st) ->
  Parse p reader' sourceFile now = Parse p reader sourceFile now.
Proof.
  intros Htok Htok' Herr Hskip. rewrite !Parse_unfold, Htok, Htok', Herr.
  rewrite (scanLoop_replace p pre post text "");
    [reflexivity|].
  intros n st. rewrite Hskip, handleLine_blank. reflexivity.
Qed.

Lemma Parse_noFatal (p : Parser) (reader : bufio.Reader) (sourceFile : string) (now : Z) :
  noFatal p (bufio.Tokens (bufio.NewScanner reader)) = true ->
  bufio.Err (bufio.NewScanner reader) = None ->
  exists d, Parse p reader sourceFile now = Ok d.
Proof.
  intros Hnf Herr. rewrite Parse_unfold, Herr.
  destruct (scanLoop_noFatal p _ Hnf 0%Z (initialState now sourceFile)) as [st' ->].
  eauto.
Qed.

(** * The claims *)

(** C4, as the code has it. For an input with a line whose marker tag has
    no case in the switch. In strict mode [Parse] returns an error that
    carries a line number, and no document; when no earlier line is fatal
    the error is the unknown-marker error with the 1-based number of that
    line. In lenient mode the line has no effect: [Parse] returns what it
    returns for the input with that line blank; it succeeds when no other
    line is fatal and the read does not fail. *)
Theorem unknown_marker_strict_lenient (p : Parser) (reader : bufio.Reader)
    (pre post : list string) (text : string) (sourceFile : string) (now : Z) :
  bufio.Tokens (bufio.NewScanner reader) = (pre ++ text :: post)%list ->
  isUnknownLine text = true ->
  (ParseOptions.StrictMode (options p) = true ->
   (exists e ln, Parse p reader sourceFile now = Err e /\ errorLine e = Some ln) /\
   (noFatal p pre = true -> (Z.of_nat (List.length pre) < maxInt)%Z ->
    exists tag content,
      classifyLine text = Marked tag content /\
      Parse p reader sourceFile now
      = Err (UnknownMarker (Z.of_nat (List.length pre) + 1) tag))) /\
  (ParseOptions.StrictMode (options p) = false ->
   (forall reader',
      bufio.Tokens (bufio.NewScanner reader') = (pre ++ "" :: post)%list ->
      bufio.Err (bufio.NewScanner reader') = bufio.Err (bufio.NewScanner reader) ->
      Parse p reader' sourceFile now = Parse p reader sourceFile now) /\
   (noFatal p (pre ++ post) = true ->
    bufio.Err (bufio.NewScanner reader) = None ->
    exists d, Parse p reader sourceFile now = Ok d)).
Proof.
  intros Htok Hunk.
  destruct (isUnknownLine_handle p 0 text (initialState 0 "") Hunk)
    as [tag [content [Hcl _]]].
  assert (Hh : forall n st,
             handleLine p n text st
             = if ParseOptions.StrictMode (options p)
               then Err (UnknownMarker n tag) else Ok st).
  { intros n st. destruct (isUnknownLine_handle p n text st Hunk)
      as [tag' [content' [Hcl' ->]]].
    rewrite Hcl in Hcl'. injection Hcl' as <- <-. reflexivity. }
  split; intros Hmode; rewrite Hmode in Hh.
  - destruct (Parse_fatal p reader pre post text sourceFile now
                (fun n => UnknownMarker n tag) Htok Hh) as [H1 H2].
    split; [exact H1|].
    intros Hpre Hlen. exists tag, content. split; [exact Hcl|]. apply H2; assumption.
  - split.
    + intros reader' Htok' Herr.
      eapply Parse_skip; eassumption.
    + intros Hnf Herr. apply Parse_noFatal; [|assumption].
      rewrite Htok. rewrite noFatal_app in *. apply andb_prop in Hnf.
      destruct Hnf as [Ha Hb]. rewrite Ha. simpl.
      rewrite Hb, andb_true_r. apply negb_true_iff.
      eapply handleLine_not_fatal. apply (Hh 0%Z (initialState 0 "")).
Qed.

(** C5. For every parser, strict or lenient, and every input with a
    chapter line whose content is no integer or a verse line whose first
    token is no integer: [Parse] returns an error that carries a line
    number, and no document; when no earlier line is fatal the error is the
    number error of that line with its 1-based line number. *)
Theorem numeric_failure_is_fatal (p : Parser) (reader : bufio.Reader)
    (pre post : list string) (text : string) (sourceFile : string) (now : Z) :
  bufio.Tokens (bufio.NewScanner reader) = (pre ++ text :: post)%list ->
  badChapterLine text || badVerseLine text = true ->
  (exists e ln, Parse p reader sourceFile now = Err e /\ errorLine e = Some ln) /\
  (noFatal p pre = true -> (Z.of_nat (List.length pre) < maxInt)%Z ->
   Parse p reader sourceFile now
   = Err (LineError (Z.of_nat (List.length pre) + 1)
            (if badChapterLine text then InvalidChapterNumber
             else InvalidVerseNumber))).
Proof.
  intros Htok Hbad.
  apply (Parse_fatal p reader pre post text sourceFile now
           (fun n => LineError n (if badChapterLine text then InvalidChapterNumber
                                  else InvalidVerseNumber)) Htok).
  intros n st. destruct (badChapterLine text) eqn:Ec.
  - apply badChapterLine_handle, Ec.
  - apply badVerseLine_handle. exact Hbad.
Qed.

(** ** Chapters *)

Lemma elements_append {A : Type} (s : slice A) (x : A) :
  elements (append s x) = (elements s ++ [x])%list.
Proof. reflexivity. Qed.

Definition openChapter (ch : option Chapter.t) : list Chapter.t :=
  match ch with
  | Some chapter => [chapter]
  | None => []
  end.

Lemma saveChapter_chapters (d : Document.t) (ch : option Chapter.t) :
  elements (Document.Chapters (saveChapter d ch))
  = (elements (Document.Chapters d) ++ openChapter ch)%list.
Proof.
  destruct ch; simpl; [reflexivity|]. rewrite app_nil_r. reflexivity.
Qed.

Lemma saveSection_number (ch : option Chapter.t) (sec : option Section.t) :
  map Chapter.Number (openChapter (saveSection ch sec))
  = map Chapter.Number (openChapter ch).
Proof. destruct ch, sec; reflexivity. Qed.

Definition chapterNumbers (st : state) : list Z :=
  map Chapter.Number (chaptersOf st).

Lemma chapterNumbers_eq (d : Document.t) (ch : option Chapter.t) (sec : option Section.t) :
  chapterNumbers (mkState d ch sec)
  = (map Chapter.Number (elements (Document.Chapters d))
     ++ map Chapter.Number (openChapter ch))%list.
Proof. unfold chapterNumbers, chaptersOf. simpl. apply map_app. Qed.

(** One line adds the number of its chapter, when it is a chapter line,
    and changes no other. *)
Lemma handleLine_chapters (p : Parser) (n : Z) (text : string) (st st' : state) :
  handleLine p n text st = Ok st' ->
  map Some (chapterNumbers st')
  = (map Some (chapterNumbers st)
     ++ (if isChapterLine text then [chapterNumberOf text] else []))%list.
Proof.
  rewrite handleLine_classify.
  unfold isChapterLine, hasTag, chapterNumberOf.
  destruct st as [d ch sec].
  destruct (classifyLine text) as [|e|tag content].
  - intros H. injection H as <-. rewrite app_nil_r. reflexivity.
  - destruct (ParseOptions.StrictMode (options p)); [discriminate|].
    intros H. injection H as <-. rewrite app_nil_r. reflexivity.
  - tag_cases tag.
    13: { rewrite handleMarker_unknown by assumption.
          destruct (ParseOptions.StrictMode (options p)); [discriminate|].
          intros H. injection H as <-.
          simpl in Hrec. repeat (apply orb_false_elim in Hrec; destruct Hrec as [? Hrec]).
          simpl. replace (String.eqb tag "c") with false by congruence.
          simpl. rewrite app_nil_r. reflexivity. }
    all: rewrite_case.
    all: try (intros H; injection H as <-; simpl; rewrite app_nil_r;
              rewrite !chapterNumbers_eq, ?saveSection_number; reflexivity).
    + destruct (parseChapter content) as [num|]; [|discriminate].
      intros H. injection H as <-. simpl.
      rewrite !chapterNumbers_eq, saveChapter_chapters.
      rewrite !map_app, saveSection_number. reflexivity.
    + destruct (parseVerse content _); [|discriminate].
      intros H. injection H as <-. simpl. rewrite app_nil_r.
      rewrite !chapterNumbers_eq. reflexivity.
Qed.

Lemma scanLoop_chapters (p : Parser) (tokens : list string) :
  forall (n : Z) (st st' : state),
    scanLoop p n tokens st = Ok st' ->
    map Some (chapterNumbers st')
    = (map Some (chapterNumbers st)
       ++ map chapterNumberOf (filter isChapterLine tokens))%list.
Proof.
  induction tokens as [|t ts IH]; simpl; intros n st st' H.
  - injection H as <-. rewrite app_nil_r. reflexivity.
  - destruct (handleLine p (wrapInt (n + 1)) t st) as [st1|] eqn:Ht; [|discriminate].
    rewrite (IH _ _ _ H), (handleLine_chapters _ _ _ _ _ Ht), <- app_assoc.
    destruct (isChapterLine t); reflexivity.
Qed.

(** C1. When [Parse] succeeds, the document has one chapter for each
    chapter line of the input, in the order of the lines: the numbers of
    its chapters are the numbers of the chapter lines, whatever their
    values. *)
Theorem chapters_in_encounter_order (p : Parser) (reader : bufio.Reader)
    (sourceFile : string) (now : Z) (d : Document.t) :
  Parse p reader sourceFile now = Ok d ->
  len (Document.Chapters d)
  = List.length (filter isChapterLine (bufio.Tokens (bufio.NewScanner reader))) /\
  map Some (map Chapter.Number (elements (Document.Chapters d)))
  = map chapterNumberOf
      (filter isChapterLine (bufio.Tokens (bufio.NewScanner reader))).
Proof.
  rewrite Parse_unfold.
  destruct (scanLoop _ _ _ _) as [[d' ch sec]|] eqn:Hloop; [|discriminate].
  destruct (bufio.Err _); [discriminate|].
  intros H. injection H as <-.
  apply scanLoop_chapters in Hloop.
  rewrite chapterNumbers_eq in Hloop. simpl in Hloop.
  assert (Hnum : map Some (map Chapter.Number
                   (elements (Document.Chapters (saveChapter d' (saveSection ch sec)))))
                 = map chapterNumberOf
                     (filter isChapterLine (bufio.Tokens (bufio.NewScanner reader)))).
  { rewrite saveChapter_chapters, map_app, saveSection_number. exact Hloop. }
  split; [|exact Hnum].
  unfold len. apply (f_equal (@List.length _)) in Hnum.
  rewrite !length_map in Hnum. exact Hnum.
Qed.

(** ** Content in front of the first chapter *)















(** ** Sample inputs *)

(** The lines, with a newline between one and the next. *)
Definition joinLines (lines : list string) : string :=
  String.concat (String newline "") lines.

Definition StrictParseOptions : ParseOptions.t := ParseOptions.mk true true true.

(** The input of the test of the implicit section. *)
Definition helloInput : string := joinLines ["\id X"; "\c 1"; "\v 1 Hello."].

Definition helloChapters : slice Chapter.t :=
  Slice [Chapter.mk 1
           (Slice [Section.mk 1 "" ""
                     (Slice [Verse.mk 1 "Hello." (Slice [])])])].

Lemma chapters_in_encounter_order_witness :
  exists d,
    Parse (NewParser DefaultParseOptions) (NewReader (joinLines ["\c 2"; "\c 1"]))
      "in.sfm" 0 = Ok d /\
    len (Document.Chapters d) = 2%nat /\
    map Some (map Chapter.Number (elements (Document.Chapters d)))
    = [Some 2%Z; Some 1%Z].
Proof.
  eexists. split; [reflexivity|].
  exact (chapters_in_encounter_order
           (NewParser DefaultParseOptions)
           (NewReader (joinLines ["\c 2"; "\c 1"])) "in.sfm" 0 _ eq_refl).
Defined.

(** C4 as it is stated fails: this input has a line with an unrecognized
    tag, and the lenient parser does not succeed on it. *)
Lemma lenient_parse_can_fail_after_unknown_marker :
  isUnknownLine "\xyz foo" = true /\
  bufio.Tokens (bufio.NewScanner (NewReader (joinLines ["\xyz foo"; "\c abc"])))
  = ["\xyz foo"; "\c abc"] /\
  ParseOptions.StrictMode (options (NewParser DefaultParseOptions)) = false /\
  Parse (NewParser DefaultParseOptions)
    (NewReader (joinLines ["\xyz foo"; "\c abc"])) "in.sfm" 0
  = Err (LineError 2 InvalidChapterNumber).
Proof. repeat split. Qed.

Lemma unknown_marker_strict_lenient_witness :
  (exists tag content,
     classifyLine "\xyz foo" = Marked tag content /\
     Parse (NewParser StrictParseOptions)
       (NewReader (joinLines ["\id X"; "\xyz foo"; "\c 1"])) "in.sfm" 0
     = Err (UnknownMarker 2 tag)) /\
  Parse (NewParser DefaultParseOptions)
    (NewReader (joinLines ["\id X"; ""; "\c 1"])) "in.sfm" 0
  = Parse (NewParser DefaultParseOptions)
      (NewReader (joinLines ["\id X"; "\xyz foo"; "\c 1"])) "in.sfm" 0 /\
  exists d,
    Parse (NewParser DefaultParseOptions)
      (NewReader (joinLines ["\id X"; "\xyz foo"; "\c 1"])) "in.sfm" 0 = Ok d.
Proof.
  destruct (unknown_marker_strict_lenient (NewParser StrictParseOptions)
              (NewReader (joinLines ["\id X"; "\xyz foo"; "\c 1"]))
              ["\id X"] ["\c 1"] "\xyz foo" "in.sfm" 0 eq_refl eq_refl)
    as [Hstrict _].
  destruct (unknown_marker_strict_lenient (NewParser DefaultParseOptions)
              (NewReader (joinLines ["\id X"; "\xyz foo"; "\c 1"]))
              ["\id X"] ["\c 1"] "\xyz foo" "in.sfm" 0 eq_refl eq_refl)
    as [_ Hlenient].
  destruct (Hstrict eq_refl) as [_ Hat].
  destruct (Hlenient eq_refl) as [Hblank Hok].
  split; [|split].
  - apply Hat; reflexivity.
  - apply Hblank; reflexivity.
  - apply Hok; reflexivity.
Defined.

Lemma numeric_failure_is_fatal_witness :
  Parse (NewParser DefaultParseOptions)
    (NewReader (joinLines ["\id X"; "\c one"; "\v 1 a"])) "in.sfm" 0
  = Err (LineError 2 InvalidChapterNumber) /\
  Parse (NewParser StrictParseOptions)
    (NewReader (joinLines ["\c 1"; "\v 1a b"])) "in.sfm" 0
  = Err (LineError 2 InvalidVerseNumber).
Proof.
  split.
  - apply (numeric_failure_is_fatal (NewParser DefaultParseOptions)
             (NewReader (joinLines ["\id X"; "\c one"; "\v 1 a"]))
             ["\id X"] ["\v 1 a"] "\c one" "in.sfm" 0 eq_refl eq_refl);
      reflexivity.
  - apply (numeric_failure_is_fatal (NewParser StrictParseOptions)
             (NewReader (joinLines ["\c 1"; "\v 1a b"]))
             ["\c 1"] [] "\v 1a b" "in.sfm" 0 eq_refl eq_refl);
      reflexivity.
Defined.


(** C2. With the default options the input of three lines, an id line, a
    chapter line and a verse line, gives one chapter, number 1, with one
    section of level 1 and empty title, with the one verse. In general a
    verse line that finds no open section opens one of level 1 with an
    empty title and no verses, and puts its verse there. *)
Theorem verse_without_heading_opens_section :
  (forall (sourceFile : string) (now : Z),
     exists d,
       Parse (NewParser DefaultParseOptions) (NewReader helloInput) sourceFile now
       = Ok d /\
       Document.Chapters d = helloChapters) /\
  (forall (p : Parser) (n l : Z) (content : string) (d : Document.t)
          (ch : option Chapter.t),
     handleMarker p n (Marker.mk "v" content l) (mkState d ch None)
     = match parseVerse content (ParseOptions.IncludeFootnotes (options p)) with
       | Err e => Err (LineError n e)
       | Ok verse =>
           Ok (mkState d ch (Some (Section.mk 1 "" "" (Slice [verse]))))
       end).
Proof.
  split.
  - intros sourceFile now. eexists. split; reflexivity.
  - intros. rewrite handleMarker_v. destruct (parseVerse _ _); reflexivity.
Qed.

(** C3. With footnotes included, the verse content with one footnote block
    between [A] and [B] gives verse 1 with the text [A B] and the one
    footnote: caller [+], reference [1:1], text [Note text]. *)
Theorem footnote_is_extracted_and_removed :
  parseVerse "1 A \f + \fr 1:1 \ft Note text\f* B" true
  = Ok (Verse.mk 1 "A B" (Slice [Footnote.mk "+" "1:1" "Note text"])).
Proof. reflexivity. Qed.

(** ** Verse content *)






(** C7. With footnotes not included, a verse content that is a number, a
    space and a body gives the verse with that number, the body as it is
    (markup, spaces and all) and an empty, allocated footnote slice; a
    content that is a number alone gives an empty text. Every content
    that [parseVerse] accepts has one of the two shapes. *)
Theorem verse_text_is_raw_body_without_footnotes :
  (forall (num body : string) (n : Z),
     strconv.Atoi num = Some n ->
     parseVerse (num ++ String " " body) false = Ok (Verse.mk n body make0) /\
     parseVerse num false = Ok (Verse.mk n "" make0)) /\
  (forall (content : string) (v : Verse.t),
     parseVerse content false = Ok v ->
     Verse.Footnotes v = make0 /\
     exists num,
       strconv.Atoi num = Some (Verse.Number v) /\
       (content = num ++ String " " (Verse.Text v)
        \/ content = num /\ Verse.Text v = "")).
Proof.
  split.
  - intros num body n Hn.
    destruct (Atoi_chars _ _ Hn) as [_ Hall].
    apply (allChars_impl _ _ _ isNumChar_not_blank) in Hall.
    unfold parseVerse, strings.SplitN_space_2.
    rewrite (cutSpace_append _ body Hall), (cutSpace_none _ Hall).
    simpl. rewrite Hn. split; reflexivity.
  - intros content v. unfold parseVerse, strings.SplitN_space_2.
    destruct (strings.cutSpace content) as [[a b]|] eqn:E; simpl.
    + destruct (strconv.Atoi a) as [n|] eqn:Ea; [|discriminate].
      intros H. injection H as <-. simpl. split; [reflexivity|].
      exists a. split; [exact Ea|]. left. apply cutSpace_some, E.
    + destruct (strconv.Atoi content) as [n|] eqn:Ea; [|discriminate].
      intros H. injection H as <-. simpl. split; [reflexivity|].
      exists content. split; [exact Ea|]. right. split; reflexivity.
Qed.

Lemma verse_text_is_raw_body_without_footnotes_witness :
  parseVerse "1 A  \f + \fr 1:1 \ft Note text\f* B " false
  = Ok (Verse.mk 1 "A  \f + \fr 1:1 \ft Note text\f* B " make0).
Proof.
  exact (proj1 (proj1 verse_text_is_raw_body_without_footnotes
                  "1" "A  \f + \fr 1:1 \ft Note text\f* B " 1%Z eq_refl)).
Defined.

(** ** Footnote blocks *)














(** ** The loop that collapses spaces *)

Lemma replaceFrom_length (s : string) :
  forall k,
    (String.length (strings.replaceFrom k s "  " " ") <= String.length s - k)%nat.
Proof.
  induction s as [|c s IH]; intros k; [simpl; lia|].
  cbn [strings.replaceFrom]. destruct k as [|k].
  - destruct (strings.HasPrefix (String c s) "  ") eqn:E.
    + simpl. specialize (IH 1%nat).
      destruct s as [|c' s']; [simpl in E; rewrite andb_false_r in E; discriminate|].
      simpl in IH |- *. lia.
    + simpl. specialize (IH 0%nat). lia.
  - specialize (IH k). simpl. lia.
Qed.

Lemma ReplaceAll_shorter (s : string) :
  strings.Contains s "  " = true ->
  (String.length (strings.ReplaceAll s "  " " ") < String.length s)%nat.
Proof.
  unfold strings.ReplaceAll.
  induction s as [|c s IH]; [discriminate|].
  cbn [strings.Contains strings.replaceFrom].
  destruct (strings.HasPrefix (String c s) "  ") eqn:E.
  - intros _. pose proof (replaceFrom_length s 1) as H.
    destruct s as [|c' s']; [simpl in E; rewrite andb_false_r in E; discriminate|].
    simpl in H |- *. lia.
  - simpl. intros H. apply IH in H. simpl. lia.
Qed.

(** The fuel of [collapseSpaces] is enough: the loop has left when the
    result is returned. *)
Lemma collapseSpaces_done (s : string) :
  strings.Contains (collapseSpaces s) "  " = false.
Proof.
  unfold collapseSpaces.
  assert (H : forall fuel s, (String.length s <= fuel)%nat ->
                             strings.Contains (collapseLoop fuel s) "  " = false).
  { clear s. induction fuel as [|fuel IH]; intros s Hs.
    - destruct s; [reflexivity | simpl in Hs; lia].
    - cbn [collapseLoop]. destruct (strings.Contains s "  ") eqn:E; [|exact E].
      apply IH. apply ReplaceAll_shorter in E. lia. }
  apply H. lia.
Qed.





(** ** Marker lines *)

(** The shape of a marker line: the backslash, a tag of one or more bytes
    of [[a-z0-9]], the star or nothing, white space of at least [minSpace]
    bytes, and any content. *)
Definition MarkerShape (minSpace : nat) (line : string) : Prop :=
  exists tag star ws content,
    line = String backslash (tag ++ star ++ ws ++ content) /\
    tag <> "" /\
    allChars isTagChar tag = true /\
    (star = "" \/ star = "*") /\
    allChars isRegexSpace ws = true /\
    (minSpace <= String.length ws)%nat.

Lemma span_snd (f : ascii -> bool) (s : string) :
  snd (span f s) = dropWhile f s.
Proof.
  induction s as [|c s IH]; [reflexivity|].
  simpl. destruct (f c); [|reflexivity].
  destruct (span f s). exact IH.
Qed.

Lemma dropWhile_allChars (f g : ascii -> bool) (s : string) :
  allChars g s = true -> allChars g (dropWhile f s) = true.
Proof.
  induction s as [|c s IH]; [reflexivity|].
  simpl. intros H. destruct (f c); [|exact H].
  apply andb_prop in H. apply IH, H.
Qed.

Lemma markerRegex_no_match (line : string) :
  regexp.markerRegex_FindStringSubmatch line = [] -> ~ MarkerShape 0 line.
Proof.
  intros H [tag [star [ws [content [-> [Hne [Htag _]]]]]]].
  unfold regexp.markerRegex_FindStringSubmatch in H.
  rewrite Ascii.eqb_refl in H.
  destruct tag as [|c tag]; [contradiction|].
  simpl in Htag. apply andb_prop in Htag. destruct Htag as [Hc _].
  cbn [String.append span] in H. rewrite Hc in H.
  destruct (span isTagChar (tag ++ star ++ ws ++ content)).
  simpl in H.
  destruct (match _ with String _ _ => _ | _ => _ end) as [? r2] in H.
  destruct (span isRegexSpace r2). destruct (span notNewline _).
  discriminate.
Qed.

(** What the pattern gives on a line that starts with the backslash. *)
Lemma markerRegex_match (r0 : string) :
  fst (span isTagChar r0) <> "" ->
  exists star ws rest,
    r0 = fst (span isTagChar r0) ++ star ++ ws ++ rest /\
    (star = "" \/ star = "*") /\
    allChars isRegexSpace ws = true /\
    regexp.markerRegex_FindStringSubmatch (String backslash r0)
    = [String backslash (fst (span isTagChar r0)) ++ star ++ ws
         ++ fst (span notNewline rest);
       fst (span isTagChar r0);
       fst (span notNewline rest)].
Proof.
  intros Hne. unfold regexp.markerRegex_FindStringSubmatch.
  rewrite Ascii.eqb_refl.
  pose proof (span_append isTagChar r0) as Hr0.
  destruct (span isTagChar r0) as [tag r1]. simpl in Hne, Hr0 |- *.
  destruct (String.eqb_spec tag ""); [contradiction|].
  assert (Hstar : exists star r2,
             r1 = star ++ r2 /\ (star = "" \/ star = "*") /\
             match r1 with
             | String "*" r => ("*", r)
             | _ => ("", r1)
             end = (star, r2)).
  { destruct r1 as [|c r]; [exists "", ""; auto|].
    destruct (Ascii.eqb_spec c "*") as [->|Hc].
    - exists "*", r. auto.
    - exists "", (String c r). repeat split; auto.
      destruct c as [[] [] [] [] [] [] [] []]; try reflexivity.
      contradiction Hc. reflexivity. }
  destruct Hstar as [star [r2 [Hr1 [Hs ->]]]].
  pose proof (span_append isRegexSpace r2) as Hr2.
  pose proof (span_all isRegexSpace r2) as Hws.
  destruct (span isRegexSpace r2) as [ws r3]. simpl in Hr2, Hws.
  exists star, ws, r3.
  destruct (span notNewline r3) as [content r4]. simpl.
  repeat split; try assumption. congruence.
Qed.

Lemma HasPrefix_backslash (r : string) :
  strings.HasPrefix (String backslash r) "\" = true.
Proof. destruct r; reflexivity. Qed.

Lemma parseMarker_ok (tag content : string) (n : Z) :
  tag <> "" ->
  allChars isTagChar tag = true ->
  allChars notNewline content = true ->
  parseMarker (String backslash (tag ++ String " " content)) n
  = Ok (Marker.mk tag (strings.TrimSpace content) n).
Proof.
  intros Hne Htag Hnl. unfold parseMarker.
  rewrite HasPrefix_backslash.
  cbn [negb]. unfold regexp.markerRegex_FindStringSubmatch.
  rewrite Ascii.eqb_refl.
  rewrite (span_stop isTagChar tag " " content Htag eq_refl).
  destruct (String.eqb_spec tag ""); [contradiction|].
  cbv iota.
  pose proof (span_snd isRegexSpace (String " " content)) as Hsnd.
  pose proof (span_all isRegexSpace (String " " content)) as Hws.
  destruct (span isRegexSpace (String " " content)) as [ws r3].
  simpl in Hsnd, Hws. subst r3.
  rewrite (span_whole notNewline (dropWhile isRegexSpace content))
    by (apply dropWhile_allChars, Hnl).
  cbn [List.length Nat.ltb Nat.leb nth].
  rewrite TrimSpace_dropWhile. reflexivity.
Qed.

Lemma HasPrefix_backslash_inv (line : string) :
  strings.HasPrefix line "\" = true -> exists r0, line = String backslash r0.
Proof.
  destruct line as [|c r]; [discriminate|].
  change (strings.HasPrefix (String c r) "\")
    with (Ascii.eqb backslash c && strings.HasPrefix r "").
  intros H. apply andb_prop in H. destruct H as [Hc _].
  apply Ascii.eqb_eq in Hc. subst c. exists r. reflexivity.
Qed.

Lemma parseMarker_error (line : string) (n : Z) :
  (parseMarker line n = Err NotAMarker <-> strings.HasPrefix line "\" = false) /\
  (parseMarker line n = Err InvalidMarkerFormat <->
   strings.HasPrefix line "\" = true /\
   regexp.markerRegex_FindStringSubmatch line = []).
Proof.
  unfold parseMarker.
  destruct (strings.HasPrefix line "\") eqn:Hp; cbn [negb].
  - destruct (HasPrefix_backslash_inv line Hp) as [r0 ->].
    destruct (String.eqb_spec (fst (span isTagChar r0)) "") as [He|Hne].
    + assert (Hm : regexp.markerRegex_FindStringSubmatch (String backslash r0) = []).
      { unfold regexp.markerRegex_FindStringSubmatch. rewrite Ascii.eqb_refl.
        destruct (span isTagChar r0) as [tag r1]. simpl in He. subst tag.
        reflexivity. }
      rewrite Hm. simpl. split; split; intros; try discriminate; auto.
    + destruct (markerRegex_match r0 Hne) as [star [ws [rest [_ [_ [_ ->]]]]]].
      simpl. split; split; try discriminate.
      intros [_ H]. discriminate.
  - split; split; intros; try discriminate; try reflexivity.
    destruct H. discriminate.
Qed.

Lemma markerRegex_shape (line : string) :
  strings.HasPrefix line "\" = true ->
  regexp.markerRegex_FindStringSubmatch line <> [] ->
  MarkerShape 0 line.
Proof.
  intros Hp Hm.
  destruct (HasPrefix_backslash_inv line Hp) as [r0 ->].
  destruct (String.eqb_spec (fst (span isTagChar r0)) "") as [He|Hne].
  - exfalso. apply Hm.
    unfold regexp.markerRegex_FindStringSubmatch. rewrite Ascii.eqb_refl.
    destruct (span isTagChar r0) as [tag r1]. simpl in He. subst tag.
    reflexivity.
  - destruct (markerRegex_match r0 Hne) as [star [ws [rest [Hr0 [Hs [Hws _]]]]]].
    exists (fst (span isTagChar r0)), star, ws, rest.
    repeat split; try assumption.
    + change backslash with "\"%char. f_equal. exact Hr0.
    + apply span_all.
    + lia.
Qed.

(** C6, as the code has it: the white space between tag and content may be
    missing. [parseMarker] fails with [NotAMarker] exactly when the line
    does not start with the backslash, and with [InvalidMarkerFormat]
    exactly when it starts with the backslash and has not the shape
    backslash, tag, optional star, optional white space, content. A
    backslash, a tag, one space and a content without newline give the
    marker with that tag, the trimmed content and the line number; and the
    tag and content of any marker, joined again by one space, give the same
    marker. *)
Theorem parseMarker_contract :
  (forall (line : string) (n : Z),
     (parseMarker line n = Err NotAMarker <-> strings.HasPrefix line "\" = false) /\
     (parseMarker line n = Err InvalidMarkerFormat <->
      strings.HasPrefix line "\" = true /\ ~ MarkerShape 0 line)) /\
  (forall (tag content : string) (n : Z),
     tag <> "" ->
     allChars isTagChar tag = true ->
     allChars notNewline content = true ->
     parseMarker (String backslash (tag ++ String " " content)) n
     = Ok (Marker.mk tag (strings.TrimSpace content) n)) /\
  (forall (line : string) (n : Z) (m : Marker.t),
     parseMarker line n = Ok m ->
     parseMarker (String backslash (Marker.Tag m ++ String " " (Marker.Content m))) n
     = Ok m).
Proof.
  split; [|split].
  - intros line n. destruct (parseMarker_error line n) as [H1 H2].
    split; [exact H1|]. rewrite H2. split; intros [Hp Hm]; split; try assumption.
    + apply markerRegex_no_match, Hm.
    + destruct (regexp.markerRegex_FindStringSubmatch line) eqn:E; [reflexivity|].
      exfalso. apply Hm, markerRegex_shape; [exact Hp|]. rewrite E. discriminate.
  - exact parseMarker_ok.
  - intros line n m H.
    assert (Hm : exists r0 rest,
               fst (span isTagChar r0) <> "" /\
               m = Marker.mk (fst (span isTagChar r0))
                     (strings.TrimSpace (fst (span notNewline rest))) n).
    { revert H. unfold parseMarker.
      destruct (strings.HasPrefix line "\") eqn:Hp; [|discriminate]. cbn [negb].
      destruct (HasPrefix_backslash_inv line Hp) as [r0 ->].
      destruct (String.eqb_spec (fst (span isTagChar r0)) "") as [He|Hne].
      - unfold regexp.markerRegex_FindStringSubmatch. rewrite Ascii.eqb_refl.
        destruct (span isTagChar r0) as [tag r1]. simpl in He. subst tag.
        discriminate.
      - destruct (markerRegex_match r0 Hne) as [star [ws [rest [_ [_ [_ Hm]]]]]].
        change "\"%char with backslash. rewrite Hm. simpl.
        intros H. injection H as <-. exists r0, rest. split; [exact Hne|reflexivity]. }
    destruct Hm as [r0 [rest [Hne ->]]]. simpl.
    rewrite parseMarker_ok.
    + rewrite TrimSpace_idem. reflexivity.
    + exact Hne.
    + apply span_all.
    + apply TrimSpace_allChars, span_all.
Qed.

Lemma MarkerShape_space (line : string) :
  MarkerShape 1 line ->
  allChars (fun c => negb (isRegexSpace c)) line = false.
Proof.
  intros [tag [star [ws [content [-> [_ [_ [_ [Hws Hlen]]]]]]]]].
  destruct ws as [|w ws]; [simpl in Hlen; lia|].
  simpl in Hws. apply andb_prop in Hws. destruct Hws as [Hw _].
  cbn [allChars]. rewrite !allChars_append. cbn [allChars]. rewrite Hw.
  cbn [negb andb]. rewrite !andb_false_r. reflexivity.
Qed.

(** C6 as it is stated fails: the line of a backslash and the tag [id] has
    no white space after the tag, so it has not the shape with white space
    between tag and content; it starts with the backslash; and
    [parseMarker] accepts it. *)
Lemma marker_without_space_is_accepted :
  strings.HasPrefix "\id" "\" = true /\
  ~ MarkerShape 1 "\id" /\
  parseMarker "\id" 1 = Ok (Marker.mk "id" "" 1).
Proof.
  split; [reflexivity|]. split; [|reflexivity].
  intros H. apply MarkerShape_space in H. discriminate H.
Qed.

Lemma parseMarker_contract_witness :
  parseMarker "\v 1 In the beginning..." 3
  = Ok (Marker.mk "v" "1 In the beginning..." 3) /\
  parseMarker "\s1   Section Title" 4 = Ok (Marker.mk "s1" "Section Title" 4).
Proof.
  destruct parseMarker_contract as [_ [Hok Hjoin]].
  split.
  - exact (Hok "v" "1 In the beginning..." 3%Z ltac:(discriminate) eq_refl eq_refl).
  - exact (Hjoin "\s1   Section Title" 4%Z (Marker.mk "s1" "Section Title" 4) eq_refl).
Defined.

(** ** Nil and empty slices *)

Definition verseAllocated (v : Verse.t) : bool := negb (isNil (Verse.Footnotes v)).
Definition sectionAllocated (s : Section.t) : bool :=
  forallb verseAllocated (elements (Section.Verses s)).
Definition chapterAllocated (c : Chapter.t) : bool :=
  forallb sectionAllocated (elements (Chapter.Sections c)).
Definition documentAllocated (d : Document.t) : bool :=
  forallb chapterAllocated (elements (Document.Chapters d)).

Definition onOpen {A : Type} (f : A -> bool) (o : option A) : bool :=
  match o with
  | Some a => f a
  | None => true
  end.

(** Every verse the state holds has an allocated footnote slice. *)
Definition stateAllocated (st : state) : bool :=
  documentAllocated (doc st)
  && onOpen chapterAllocated (currentChapter st)
  && onOpen sectionAllocated (currentSection st).

Lemma extractFootnotes_allocated (text : string) :
  isNil (extractFootnotes text) = false.
Proof.
  unfold extractFootnotes.
  assert (H : forall (l : list (list string)) (acc : slice Footnote.t),
             isNil acc = false ->
             isNil
               (fold_left
                  (fun footnotes match_ =>
                     if (4 <=? List.length match_)%nat
                     then append footnotes
                            (Footnote.mk (strings.TrimSpace (nth 1 match_ ""))
                               (strings.TrimSpace (nth 2 match_ ""))
                               (strings.TrimSpace (nth 3 match_ "")))
                     else footnotes) l acc) = false).
  { induction l as [|m l IH]; intros acc Hacc; [exact Hacc|].
    cbn [fold_left]. apply IH.
    destruct (4 <=? List.length m)%nat; [reflexivity|exact Hacc]. }
  apply H. reflexivity.
Qed.

Lemma parseVerse_allocated (content : string) (b : bool) (v : Verse.t) :
  parseVerse content b = Ok v -> verseAllocated v = true.
Proof.
  unfold parseVerse, verseAllocated.
  destruct (_ <? 1)%nat; [discriminate|].
  destruct (strconv.Atoi _); [|discriminate].
  destruct b; intros H; injection H as <-; simpl; [|reflexivity].
  rewrite extractFootnotes_allocated. reflexivity.
Qed.

Lemma saveSection_allocated (ch : option Chapter.t) (sec : option Section.t) :
  onOpen chapterAllocated ch = true ->
  onOpen sectionAllocated sec = true ->
  onOpen chapterAllocated (saveSection ch sec) = true.
Proof.
  destruct ch as [c|], sec as [s|]; simpl; auto.
  intros Hc Hs. unfold chapterAllocated in *. simpl.
  rewrite forallb_app, Hc. simpl. rewrite Hs. reflexivity.
Qed.

Lemma saveChapter_allocated (d : Document.t) (ch : option Chapter.t) :
  documentAllocated d = true ->
  onOpen chapterAllocated ch = true ->
  documentAllocated (saveChapter d ch) = true.
Proof.
  destruct ch as [c|]; simpl; auto.
  intros Hd Hc. unfold documentAllocated in *. simpl.
  rewrite forallb_app, Hd. simpl. rewrite Hc. reflexivity.
Qed.

Lemma stateAllocated_intro (d : Document.t) (ch : option Chapter.t)
    (sec : option Section.t) :
  documentAllocated d = true ->
  onOpen chapterAllocated ch = true ->
  onOpen sectionAllocated sec = true ->
  stateAllocated (mkState d ch sec) = true.
Proof. unfold stateAllocated. simpl. intros -> -> ->. reflexivity. Qed.

Lemma stateAllocated_elim (d : Document.t) (ch : option Chapter.t)
    (sec : option Section.t) :
  stateAllocated (mkState d ch sec) = true ->
  documentAllocated d = true /\
  onOpen chapterAllocated ch = true /\
  onOpen sectionAllocated sec = true.
Proof.
  unfold stateAllocated. simpl. intros H.
  apply andb_prop in H. destruct H as [H H3].
  apply andb_prop in H. tauto.
Qed.

Lemma handleLine_allocated (p : Parser) (n : Z) (text : string) (st st' : state) :
  stateAllocated st = true ->
  handleLine p n text st = Ok st' ->
  stateAllocated st' = true.
Proof.
  rewrite handleLine_classify. destruct st as [d ch sec]. intros Hst.
  pose proof (stateAllocated_elim _ _ _ Hst) as [Hd [Hc Hs]].
  destruct (classifyLine text) as [|e|tag content].
  - intros H. injection H as <-. exact Hst.
  - destruct (ParseOptions.StrictMode (options p)); [discriminate|].
    intros H. injection H as <-. exact Hst.
  - tag_cases tag.
    13: { rewrite handleMarker_unknown by assumption.
          destruct (ParseOptions.StrictMode (options p)); [discriminate|].
          intros H. injection H as <-. exact Hst. }
    all: rewrite_case.
    all: try (intros H; injection H as <-; exact Hst).
    + destruct (parseChapter content); [|discriminate].
      intros H. injection H as <-.
      apply stateAllocated_intro; try reflexivity.
      apply saveChapter_allocated; [exact Hd|].
      apply saveSection_allocated; assumption.
    + intros H. injection H as <-.
      apply stateAllocated_intro; try reflexivity; try assumption.
      apply saveSection_allocated; assumption.
    + intros H. injection H as <-.
      apply stateAllocated_intro; try reflexivity; try assumption.
      apply saveSection_allocated; assumption.
    + intros H. injection H as <-.
      apply stateAllocated_intro; try reflexivity; try assumption.
      apply saveSection_allocated; assumption.
    + intros H. injection H as <-.
      apply stateAllocated_intro; try assumption.
      destruct (ParseOptions.IncludeReferences (options p)); [|exact Hs].
      destruct sec; [exact Hs|reflexivity].
    + destruct (parseVerse content _) as [verse|] eqn:Ev; [|discriminate].
      intros H. injection H as <-.
      apply parseVerse_allocated in Ev.
      apply stateAllocated_intro; try assumption.
      destruct sec as [s|]; simpl in Hs |- *; unfold sectionAllocated in *; simpl.
      * rewrite forallb_app, Hs. simpl. rewrite Ev. reflexivity.
      * rewrite Ev. reflexivity.
Qed.

Lemma scanLoop_allocated (p : Parser) (tokens : list string) :
  forall n st st',
    stateAllocated st = true ->
    scanLoop p n tokens st = Ok st' ->
    stateAllocated st' = true.
Proof.
  induction tokens as [|t ts IH]; simpl; intros n st st' Hst H.
  - injection H as <-. exact Hst.
  - destruct (handleLine p (wrapInt (n + 1)) t st) as [st1|] eqn:Ht; [|discriminate].
    eapply IH; [|exact H]. eapply handleLine_allocated; eassumption.
Qed.

(** The table of contents is allocated by the first of its lines, and by
    nothing else. *)
Lemma handleLine_toc (p : Parser) (n : Z) (text : string) (st st' : state) :
  handleLine p n text st = Ok st' ->
  isNil (Document.TableOfContents (doc st'))
  = isNil (Document.TableOfContents (doc st)) && negb (isTOCLine text).
Proof.
  rewrite handleLine_classify. unfold isTOCLine, hasTag.
  destruct st as [d ch sec].
  destruct (classifyLine text) as [|e|tag content].
  - intros H. injection H as <-. simpl. rewrite andb_true_r. reflexivity.
  - destruct (ParseOptions.StrictMode (options p)); [discriminate|].
    intros H. injection H as <-. simpl. rewrite andb_true_r. reflexivity.
  - tag_cases tag.
    13: { rewrite handleMarker_unknown by assumption.
          destruct (ParseOptions.StrictMode (options p)); [discriminate|].
          intros H. injection H as <-.
          simpl in Hrec. repeat (apply orb_false_elim in Hrec; destruct Hrec as [? Hrec]).
          simpl.
          replace (String.eqb tag "toc1") with false by congruence.
          replace (String.eqb tag "toc2") with false by congruence.
          replace (String.eqb tag "toc3") with false by congruence.
          simpl. rewrite andb_true_r. reflexivity. }
    all: rewrite_case.
    all: try (intros H; injection H as <-; simpl; rewrite ?andb_true_r, ?andb_false_r;
              reflexivity).
    + destruct (parseChapter content); [|discriminate].
      intros H. injection H as <-. simpl. rewrite andb_true_r.
      destruct (saveSection ch sec); reflexivity.
    + destruct (parseVerse content _); [|discriminate].
      intros H. injection H as <-. simpl. rewrite andb_true_r. reflexivity.
Qed.

Lemma scanLoop_toc (p : Parser) (tokens : list string) :
  forall n st st',
    scanLoop p n tokens st = Ok st' ->
    isNil (Document.TableOfContents (doc st'))
    = isNil (Document.TableOfContents (doc st))
      && forallb (fun text => negb (isTOCLine text)) tokens.
Proof.
  induction tokens as [|t ts IH]; simpl; intros n st st' H.
  - injection H as <-. rewrite andb_true_r. reflexivity.
  - destruct (handleLine p (wrapInt (n + 1)) t st) as [st1|] eqn:Ht; [|discriminate].
    rewrite (IH _ _ _ H), (handleLine_toc _ _ _ _ _ Ht). symmetry. apply andb_assoc.
Qed.

Lemma saveChapter_toc (d : Document.t) (ch : option Chapter.t) :
  Document.TableOfContents (saveChapter d ch) = Document.TableOfContents d.
Proof. destruct ch; reflexivity. Qed.

(** C8, where the code leaves the claim: on the input of three lines, which
    has no line for the table of contents, [Parse] returns a document whose
    table of contents is the nil slice, not an empty one; the footnotes of
    its verse are an empty, allocated slice. *)
Theorem tableOfContents_nil_without_toc_line :
  forall (sourceFile : string) (now : Z),
  exists d,
    Parse (NewParser DefaultParseOptions) (NewReader helloInput) sourceFile now
    = Ok d /\
    Document.TableOfContents d = nilSlice /\
    isNil (Document.TableOfContents d) = true /\
    documentAllocated d = true.
Proof.
  intros sourceFile now. eexists. repeat split.
Qed.

(** * More of the parser *)

(** ** Outcomes of [Parse] *)

Definition isBlankLine (text : string) : bool :=
  String.eqb (strings.TrimSpace text) "".

Lemma isBlankLine_handle (p : Parser) (n : Z) (text : string) (st : state) :
  isBlankLine text = true -> handleLine p n text st = Ok st.
Proof.
  unfold isBlankLine, handleLine. intros ->. reflexivity.
Qed.

Lemma scanLoop_blank (p : Parser) (tokens : list string) :
  forallb isBlankLine tokens = true ->
  forall n st, scanLoop p n tokens st = Ok st.
Proof.
  induction tokens as [|t ts IH]; simpl; intros H n st; [reflexivity|].
  apply andb_prop in H. destruct H as [Ht Hts].
  rewrite (isBlankLine_handle p _ t st Ht). apply IH, Hts.
Qed.

(** An input of no line, or of blank lines only, read without failure,
    gives the document [Parse] starts from: no chapter (an allocated, empty
    slice), empty id, header and title. *)
Theorem blank_input_gives_empty_document (p : Parser) (reader : bufio.Reader)
    (sourceFile : string) (now : Z) :
  forallb isBlankLine (bufio.Tokens (bufio.NewScanner reader)) = true ->
  bufio.Err (bufio.NewScanner reader) = None ->
  Parse p reader sourceFile now
  = Ok (Document.mk "" "" nilSlice "" make0 now sourceFile).
Proof.
  intros Hb He. rewrite Parse_unfold, (scanLoop_blank p _ Hb), He. reflexivity.
Qed.

Lemma blank_input_gives_empty_document_witness :
  Parse (NewParser StrictParseOptions) (NewReader "") "empty.sfm" 7
  = Ok (Document.mk "" "" nilSlice "" make0 7 "empty.sfm") /\
  Parse (NewParser DefaultParseOptions)
    (NewReader (joinLines ["  "; ""; String "009" " "])) "blank.sfm" 7
  = Ok (Document.mk "" "" nilSlice "" make0 7 "blank.sfm").
Proof.
  split.
  - exact (blank_input_gives_empty_document (NewParser StrictParseOptions)
             (NewReader "") "empty.sfm" 7 eq_refl eq_refl).
  - exact (blank_input_gives_empty_document (NewParser DefaultParseOptions)
             (NewReader (joinLines ["  "; ""; String "009" " "])) "blank.sfm" 7
             eq_refl eq_refl).
Defined.

(** The parser with the same options, but lenient. *)
Definition lenient (p : Parser) : Parser :=
  mkParser (ParseOptions.mk false
              (ParseOptions.IncludeFootnotes (options p))
              (ParseOptions.IncludeReferences (options p))).

Lemma handleLine_lenient (p : Parser) (n : Z) (text : string) (st st' : state) :
  handleLine p n text st = Ok st' -> handleLine (lenient p) n text st = Ok st'.
Proof.
  rewrite !handleLine_classify. destruct st as [d ch sec].
  destruct (classifyLine text) as [|e|tag content].
  - trivial.
  - simpl. destruct (ParseOptions.StrictMode (options p)); [discriminate|trivial].
  - tag_cases tag.
    13: { rewrite !handleMarker_unknown by assumption. simpl.
          destruct (ParseOptions.StrictMode (options p)); [discriminate|trivial]. }
    all: repeat rewrite_case; trivial.
Qed.

Lemma scanLoop_lenient (p : Parser) (tokens : list string) :
  forall n st st',
    scanLoop p n tokens st = Ok st' -> scanLoop (lenient p) n tokens st = Ok st'.
Proof.
  induction tokens as [|t ts IH]; simpl; intros n st st' H; [exact H|].
  destruct (handleLine p (wrapInt (n + 1)) t st) as [st1|] eqn:Ht; [|discriminate].
  rewrite (handleLine_lenient _ _ _ _ _ Ht). apply IH, H.
Qed.

(** Strict mode only adds failures: a document the parser returns in any
    mode is the document the lenient parser with the same footnote and
    reference options returns. *)
Theorem strict_success_is_lenient_success (p : Parser) (reader : bufio.Reader)
    (sourceFile : string) (now : Z) (d : Document.t) :
  Parse p reader sourceFile now = Ok d ->
  Parse (lenient p) reader sourceFile now = Ok d.
Proof.
  rewrite !Parse_unfold.
  destruct (scanLoop p 0 _ _) as [st|] eqn:Hloop; [|discriminate].
  rewrite (scanLoop_lenient _ _ _ _ _ Hloop). trivial.
Qed.

Lemma strict_success_is_lenient_success_witness :
  exists d,
    Parse (NewParser StrictParseOptions) (NewReader helloInput) "in.sfm" 0 = Ok d /\
    Parse (NewParser DefaultParseOptions) (NewReader helloInput) "in.sfm" 0 = Ok d.
Proof.
  eexists. split; [reflexivity|].
  exact (strict_success_is_lenient_success (NewParser StrictParseOptions)
           (NewReader helloInput) "in.sfm" 0 _ eq_refl).
Defined.

Lemma parseVerse_error (content : string) (b : bool) (e : errorKind) :
  parseVerse content b = Err e -> e = InvalidVerseNumber.
Proof.
  unfold parseVerse, strings.SplitN_space_2.
  destruct (strings.cutSpace content) as [[a r]|]; simpl.
  - destruct (strconv.Atoi a); [destruct b; discriminate|]. congruence.
  - destruct (strconv.Atoi content); [destruct b; discriminate|]. congruence.
Qed.

Lemma parseChapter_error (content : string) (e : errorKind) :
  parseChapter content = Err e -> e = InvalidChapterNumber.
Proof.
  unfold parseChapter. destruct (strconv.Atoi _); [discriminate|congruence].
Qed.

Definition isNumberError (e : error) : bool :=
  match e with
  | LineError _ InvalidChapterNumber => true
  | LineError _ InvalidVerseNumber => true
  | _ => false
  end.

Lemma handleLine_lenient_error (p : Parser) (n : Z) (text : string) (st : state)
    (e : error) :
  ParseOptions.StrictMode (options p) = false ->
  handleLine p n text st = Err e -> isNumberError e = true.
Proof.
  intros Hmode. rewrite handleLine_classify. destruct st as [d ch sec].
  destruct (classifyLine text) as [|k|tag content].
  - discriminate.
  - rewrite Hmode. discriminate.
  - tag_cases tag.
    13: { rewrite handleMarker_unknown by assumption. rewrite Hmode. discriminate. }
    all: rewrite_case; try discriminate.
    + destruct (parseChapter content) as [|k] eqn:E; [discriminate|].
      apply parseChapter_error in E. subst k. intros H. injection H as <-.
      reflexivity.
    + destruct (parseVerse content _) as [|k] eqn:E; [discriminate|].
      apply parseVerse_error in E. subst k. intros H. injection H as <-.
      reflexivity.
Qed.

Lemma scanLoop_lenient_error (p : Parser) (tokens : list string) :
  ParseOptions.StrictMode (options p) = false ->
  forall n st e, scanLoop p n tokens st = Err e -> isNumberError e = true.
Proof.
  intros Hmode. induction tokens as [|t ts IH]; simpl; intros n st e H.
  - discriminate.
  - destruct (handleLine p (wrapInt (n + 1)) t st) as [st1|e1] eqn:Ht.
    + eapply IH, H.
    + injection H as <-. eapply handleLine_lenient_error; eassumption.
Qed.

(** In lenient mode [Parse] fails for two reasons only: a chapter or verse
    number that does not parse, or a failure of the read. *)
Theorem lenient_failure_is_number_or_read (p : Parser) (reader : bufio.Reader)
    (sourceFile : string) (now : Z) (e : error) :
  ParseOptions.StrictMode (options p) = false ->
  Parse p reader sourceFile now = Err e ->
  isNumberError e = true \/
  exists se, bufio.Err (bufio.NewScanner reader) = Some se /\ e = InputReadFailure se.
Proof.
  intros Hmode. rewrite Parse_unfold.
  destruct (scanLoop p 0 _ _) as [st|e1] eqn:Hloop.
  - destruct (bufio.Err _) as [se|]; [|discriminate].
    intros H. injection H as <-. right. eauto.
  - intros H. injection H as <-. left.
    eapply scanLoop_lenient_error; eassumption.
Qed.

Lemma lenient_failure_is_number_or_read_witness :
  isNumberError (LineError 2 InvalidVerseNumber) = true \/
  exists se,
    bufio.Err (bufio.NewScanner
                 (NewReader (joinLines ["not a marker"; "\v x"; "\zzz"])))
    = Some se /\
    LineError 2 InvalidVerseNumber = InputReadFailure se.
Proof.
  exact (lenient_failure_is_number_or_read (NewParser DefaultParseOptions)
           (NewReader (joinLines ["not a marker"; "\v x"; "\zzz"])) "in.sfm" 0
           (LineError 2 InvalidVerseNumber) eq_refl eq_refl).
Defined.

(** [Parse] stops at the first fatal line and reports its number; without
    a fatal line it reports the failure of the read, if there is one; else
    it returns a document. *)
Theorem first_fatal_line_decides (p : Parser) (reader : bufio.Reader)
    (sourceFile : string) (now : Z) :
  (forall pre text post,
     bufio.Tokens (bufio.NewScanner reader) = (pre ++ text :: post)%list ->
     noFatal p pre = true -> fatal p text = true ->
     (Z.of_nat (List.length pre) < maxInt)%Z ->
     exists e,
       Parse p reader sourceFile now = Err e /\
       errorLine e = Some (Z.of_nat (List.length pre) + 1)%Z) /\
  (noFatal p (bufio.Tokens (bufio.NewScanner reader)) = true ->
   match bufio.Err (bufio.NewScanner reader) with
   | Some se => Parse p reader sourceFile now = Err (InputReadFailure se)
   | None => exists d, Parse p reader sourceFile now = Ok d
   end).
Proof.
  split.
  - intros pre text post Htok Hpre Hf Hlen. rewrite Parse_unfold, Htok.
    destruct (scanLoop_fatal p pre post text 0 (initialState now sourceFile) Hf)
      as [_ Hreach].
    destruct (Hreach Hpre) as [st' [_ ->]].
    destruct (proj1 (fatal_spec p (lineNumberAfter (S (List.length pre)) 0) text st') Hf)
      as [e [-> He]].
    exists e. split; [reflexivity|]. rewrite He, lineNumber_at by assumption.
    reflexivity.
  - intros Hnf. rewrite Parse_unfold.
    destruct (scanLoop_noFatal p _ Hnf 0%Z (initialState now sourceFile)) as [st' ->].
    destruct (bufio.Err _); eauto.
Qed.

Lemma first_fatal_line_decides_witness :
  exists e,
    Parse (NewParser StrictParseOptions)
      (NewReader (joinLines ["\id X"; ""; "stray text"; "\c x"])) "in.sfm" 0
    = Err e /\
    errorLine e = Some 3%Z.
Proof.
  exact (proj1 (first_fatal_line_decides (NewParser StrictParseOptions)
                  (NewReader (joinLines ["\id X"; ""; "stray text"; "\c x"]))
                  "in.sfm" 0)
           ["\id X"; ""] "stray text" ["\c x"] eq_refl eq_refl eq_refl eq_refl).
Defined.

(** ** The fields of the document *)

(** The content a line gives to the field of [tag], or [acc] when the line
    is no marker with that tag. *)
Definition setBy (tag : string) (text : string) (acc : string) : string :=
  match classifyLine text with
  | Marked tg content => if String.eqb tg tag then content else acc
  | _ => acc
  end.

(** The content of the last line with [tag]; empty when there is none. *)
Definition lastContent (tag : string) (tokens : list string) : string :=
  fold_left (fun acc text => setBy tag text acc) tokens "".

(** The entry a line adds to the table of contents. *)
Definition tocEntryOf (text : string) : option TOCEntry.t :=
  match classifyLine text with
  | Marked tag content =>
      if String.eqb tag "toc1" then Some (TOCEntry.mk 1 content)
      else if String.eqb tag "toc2" then Some (TOCEntry.mk 2 content)
      else if String.eqb tag "toc3" then Some (TOCEntry.mk 3 content)
      else None
  | _ => None
  end.

Lemma saveChapter_fields (d : Document.t) (ch : option Chapter.t) :
  Document.ID (saveChapter d ch) = Document.ID d /\
  Document.Header (saveChapter d ch) = Document.Header d /\
  Document.MainTitle (saveChapter d ch) = Document.MainTitle d.
Proof. destruct ch; repeat split. Qed.

Ltac unknown_tag Hrec tag :=
  simpl in Hrec;
  repeat (apply orb_false_elim in Hrec; destruct Hrec as [? Hrec]);
  repeat match goal with
    | E : String.eqb tag ?l = false |- context [String.eqb tag ?l] => rewrite E
    end.

Lemma handleLine_fields (p : Parser) (n : Z) (text : string) (st st' : state) :
  handleLine p n text st = Ok st' ->
  Document.ID (doc st') = setBy "id" text (Document.ID (doc st)) /\
  Document.Header (doc st') = setBy "h" text (Document.Header (doc st)) /\
  Document.MainTitle (doc st') = setBy "mt1" text (Document.MainTitle (doc st)) /\
  map Some (elements (Document.TableOfContents (doc st')))
  = (map Some (elements (Document.TableOfContents (doc st)))
     ++ (if isTOCLine text then [tocEntryOf text] else []))%list.
Proof.
  rewrite handleLine_classify. unfold setBy, isTOCLine, hasTag, tocEntryOf.
  destruct st as [d ch sec].
  destruct (classifyLine text) as [|e|tag content].
  - intros H. injection H as <-. simpl. rewrite app_nil_r. auto.
  - destruct (ParseOptions.StrictMode (options p)); [discriminate|].
    intros H. injection H as <-. simpl. rewrite app_nil_r. auto.
  - tag_cases tag.
    13: { rewrite handleMarker_unknown by assumption.
          destruct (ParseOptions.StrictMode (options p)); [discriminate|].
          intros H. injection H as <-.
          cbn [existsb]. unknown_tag Hrec tag.
          simpl. rewrite app_nil_r. auto. }
    all: rewrite_case.
    all: try (intros H; injection H as <-; simpl; rewrite ?app_nil_r;
              rewrite ?map_app; auto).
    + destruct (parseChapter content); [|discriminate].
      intros H. injection H as <-. simpl. rewrite app_nil_r.
      destruct (saveSection ch sec); simpl; auto.
    + destruct (parseVerse content _); [|discriminate].
      intros H. injection H as <-. simpl. rewrite app_nil_r. auto.
Qed.

Lemma scanLoop_fields (p : Parser) (tokens : list string) :
  forall n st st',
    scanLoop p n tokens st = Ok st' ->
    Document.ID (doc st')
    = fold_left (fun acc text => setBy "id" text acc) tokens (Document.ID (doc st)) /\
    Document.Header (doc st')
    = fold_left (fun acc text => setBy "h" text acc) tokens (Document.Header (doc st)) /\
    Document.MainTitle (doc st')
    = fold_left (fun acc text => setBy "mt1" text acc) tokens
        (Document.MainTitle (doc st)) /\
    map Some (elements (Document.TableOfContents (doc st')))
    = (map Some (elements (Document.TableOfContents (doc st)))
       ++ map tocEntryOf (filter isTOCLine tokens))%list.
Proof.
  induction tokens as [|t ts IH]; simpl; intros n st st' H.
  - injection H as <-. rewrite app_nil_r. auto.
  - destruct (handleLine p (wrapInt (n + 1)) t st) as [st1|] eqn:Ht; [|discriminate].
    destruct (handleLine_fields _ _ _ _ _ Ht) as [H1 [H2 [H3 H4]]].
    destruct (IH _ _ _ H) as [I1 [I2 [I3 I4]]].
    rewrite I1, I2, I3, I4, H1, H2, H3, H4, <- app_assoc.
    repeat split. destruct (isTOCLine t); reflexivity.
Qed.

(** The id, the header and the main title of the document are the contents
    of the last id, h and mt1 line: a later line replaces an earlier one,
    and without such a line the field is empty. *)
Theorem scalar_fields_last_line_wins (p : Parser) (reader : bufio.Reader)
    (sourceFile : string) (now : Z) (d : Document.t) :
  Parse p reader sourceFile now = Ok d ->
  Document.ID d = lastContent "id" (bufio.Tokens (bufio.NewScanner reader)) /\
  Document.Header d = lastContent "h" (bufio.Tokens (bufio.NewScanner reader)) /\
  Document.MainTitle d = lastContent "mt1" (bufio.Tokens (bufio.NewScanner reader)).
Proof.
  rewrite Parse_unfold.
  destruct (scanLoop p 0 _ _) as [[d' ch sec]|] eqn:Hloop; [|discriminate].
  destruct (bufio.Err _); [discriminate|].
  intros H. injection H as <-. simpl.
  destruct (scanLoop_fields _ _ _ _ _ Hloop) as [H1 [H2 [H3 _]]].
  destruct (saveChapter_fields d' (saveSection ch sec)) as [S1 [S2 S3]].
  rewrite S1, S2, S3. simpl in H1, H2, H3. auto.
Qed.

Lemma scalar_fields_last_line_wins_witness :
  exists d,
    Parse (NewParser DefaultParseOptions)
      (NewReader (joinLines ["\id GEN"; "\h Old"; "\c 1"; "\id EXO"; "\h New"]))
      "in.sfm" 0 = Ok d /\
    Document.ID d = "EXO" /\ Document.Header d = "New" /\ Document.MainTitle d = "".
Proof.
  eexists. split; [reflexivity|].
  exact (scalar_fields_last_line_wins (NewParser DefaultParseOptions)
           (NewReader (joinLines ["\id GEN"; "\h Old"; "\c 1"; "\id EXO"; "\h New"]))
           "in.sfm" 0 _ eq_refl).
Defined.

(** The table of contents holds one entry for each toc1, toc2 and toc3
    line, with level 1, 2 and 3, in the order of the lines; no entry
    replaces another. *)
Theorem toc_entries_accumulate_in_order (p : Parser) (reader : bufio.Reader)
    (sourceFile : string) (now : Z) (d : Document.t) :
  Parse p reader sourceFile now = Ok d ->
  map Some (elements (Document.TableOfContents d))
  = map tocEntryOf (filter isTOCLine (bufio.Tokens (bufio.NewScanner reader))).
Proof.
  rewrite Parse_unfold.
  destruct (scanLoop p 0 _ _) as [[d' ch sec]|] eqn:Hloop; [|discriminate].
  destruct (bufio.Err _); [discriminate|].
  intros H. injection H as <-. simpl.
  destruct (scanLoop_fields _ _ _ _ _ Hloop) as [_ [_ [_ H4]]].
  rewrite saveChapter_toc. exact H4.
Qed.

Lemma toc_entries_accumulate_in_order_witness :
  exists d,
    Parse (NewParser DefaultParseOptions)
      (NewReader (joinLines ["\toc2 Gen"; "\toc1 Genesis"; "\c 1"; "\toc2 G"]))
      "in.sfm" 0 = Ok d /\
    map Some (elements (Document.TableOfContents d))
    = [Some (TOCEntry.mk 2 "Gen"); Some (TOCEntry.mk 1 "Genesis");
       Some (TOCEntry.mk 2 "G")].
Proof.
  eexists. split; [reflexivity|].
  exact (toc_entries_accumulate_in_order (NewParser DefaultParseOptions)
           (NewReader (joinLines ["\toc2 Gen"; "\toc1 Genesis"; "\c 1"; "\toc2 G"]))
           "in.sfm" 0 _ eq_refl).
Defined.

(** * Where two claims go too far *)


